(** * Hospital production DataViz: the dataset-to-analysis pipeline of [app.py]

    A shallow embedding of the decision logic of the Streamlit script
    [src/app.py]: resource loading ([cargar_recurso]), column profiling
    ([numeric_cols], [low_cardinality_cols]), numeric coercion, the
    inclusive range filter, the KPI block, the Top-15 aggregation and the
    automatic skew label.

    Modelling conventions.
    - A number of a table is the rational it denotes ([Q]); [None] of
      [option Q] stands for NaN.  Comparisons, minimum and maximum are
      exact on such values.  Sums, means, medians and quantiles are
      machine arithmetic: they are taken from a record of library
      functions ([Stats.arith]), not computed.
    - Python [str] is [string], the bytes of its UTF-8 encoding, which
      keeps equality and order; [str.upper] is a parameter, and text whose
      characters are counted is a list over an abstract alphabet.
    - A pandas column carries its dtype in its constructor: [NumCol] for a
      numeric dtype (floats with NaN), [ObjCol] for every other dtype.
    - Python exceptions are the [Raise] case of [result]; [st.stop()] is the
      [Stopped] case of [outcome].
    - The network ([datastore_search], [pd.read_csv]), Python's [str()] of
      a cell, the text-to-number grammar of [pd.to_numeric], the dtype
      pandas finds for a column of numbers and the algorithm behind
      [Series.sort_values] are library code: they are
      Section variables, constrained only by what their documentation
      promises, and instantiated by executable definitions for the
      concrete checks. *)

From Stdlib Require Import List Bool Arith ZArith QArith Qround Lia.
From Stdlib Require Import String Ascii DecimalString.
From Stdlib Require Import Permutation Sorted OrderedTypeEx.
Import ListNotations.

Local Open Scope string_scope.
Local Open Scope list_scope.

(** ** Values, columns and tables *)

(** One scalar of a table, as JSON records and CSV parsing produce them.
    [Null] is [None]/NaN; [Unhashable] is a nested JSON array or object,
    kept by its printed form. *)
Inductive cell : Type :=
  | Null
  | Num (q : Q)
  | Str (s : string)
  | Bool (b : bool)
  | Unhashable (repr : string).

(** A column with its dtype. *)
Inductive column : Type :=
  | NumCol (l : list (option Q))
  | ObjCol (l : list cell).

Definition cell_of_float (x : option Q) : cell :=
  match x with
  | Some q => Num q
  | None => Null
  end.

Definition cells (c : column) : list cell :=
  match c with
  | NumCol l => map cell_of_float l
  | ObjCol l => l
  end.

(** A [pd.DataFrame]: the length of its index and its named columns, in
    column order. *)
Record DataFrame : Type := mkDF {
  nrows : nat;
  columns : list (string * column)
}.

Definition df_columns (df : DataFrame) : list string := map fst (columns df).

(** ** Exceptions *)

Inductive exn : Type :=
  | HTTPError
  | KeyError (k : string)
  | TypeError
  | ParserError
  | StreamlitAPIException.

Inductive result (A : Type) : Type :=
  | Ok (a : A)
  | Raise (e : exn).
Arguments Ok {A} a.
Arguments Raise {A} e.

Definition rbind {A B} (r : result A) (k : A -> result B) : result B :=
  match r with
  | Ok a => k a
  | Raise e => Raise e
  end.

Definition rmap {A B} (f : A -> B) (r : result A) : result B :=
  rbind r (fun a => Ok (f a)).

(** [df[name]] *)
Fixpoint getitem (cols : list (string * column)) (name : string)
  : result column :=
  match cols with
  | [] => Raise (KeyError name)
  | (n, c) :: rest => if String.eqb n name then Ok c else getitem rest name
  end.

(** ** Resource Loader *)

Module Loader.

(** A CKAN resource descriptor; a key that is absent from the JSON object
    reads as [None] through [dict.get]. *)
Record resource : Type := mkResource {
  id : string;
  datastore_active : option bool;
  format : option string;
  url : option string
}.

(** One row of [datastore_search]: a JSON object. *)
Definition record : Type := list (string * cell).

(** What [cargar_recurso] asks of the outside world.  ([st.cache_data]
    may answer a repeated [DatastoreSearch] from memory; the request is
    logged where the script makes the call.) *)
Inductive request : Type :=
  | DatastoreSearch (resource_id : string) (limit : Z)
  | ReadCsv (csv_url : string).

(** A computation that logs its requests and may raise. *)
Definition io (A : Type) : Type := (list request * result A)%type.

Definition ret {A} (a : A) : io A := ([], Ok a).

Definition bind {A B} (m : io A) (k : A -> io B) : io B :=
  match m with
  | (log, Ok a) => let '(log', r) := k a in (log ++ log', r)
  | (log, Raise e) => (log, Raise e)
  end.

Notation "x <- m ;; k" := (bind m (fun x => k))
  (at level 61, m at next level, right associativity).

(** Python truthiness of [dict.get] results. *)
Definition truthy_bool (b : option bool) : bool :=
  match b with
  | Some true => true
  | _ => false
  end.

Definition truthy_str (s : option string) : bool :=
  match s with
  | Some s => negb (String.eqb s "")
  | None => false
  end.

(** [x or ""] *)
Definition or_empty (s : option string) : string :=
  match s with
  | Some s => if String.eqb s "" then "" else s
  | None => ""
  end.

(** [resource[key]] *)
Definition subscript (key : string) (v : option string) : io string :=
  match v with
  | Some s => ret s
  | None => ([], Raise (KeyError key))
  end.

(** Upper case on ASCII letters: what [str.upper] does on ASCII text, and
    the instance used in the concrete checks.  [str.upper] itself, which
    also maps letters outside ASCII, is a parameter of the loader. *)
Definition upper_ascii (a : ascii) : ascii :=
  let n := nat_of_ascii a in
  if ((97 <=? n) && (n <=? 122))%nat then ascii_of_nat (n - 32) else a.

Fixpoint upper (s : string) : string :=
  match s with
  | EmptyString => EmptyString
  | String a rest => String (upper_ascii a) (upper rest)
  end.

(** *** [pd.DataFrame(records)] *)

Fixpoint lookup (r : record) (k : string) : cell :=
  match r with
  | [] => Null
  | (k', v) :: rest => if String.eqb k' k then v else lookup rest k
  end.

Definition add_key (seen : list string) (k : string) : list string :=
  if existsb (String.eqb k) seen then seen else seen ++ [k].

(** Column names: the keys of the records, in order of first appearance. *)
Definition record_keys (records : list record) : list string :=
  fold_left (fun seen r => fold_left add_key (map fst r) seen) records [].

Definition is_number (c : cell) : bool :=
  match c with
  | Num _ => true
  | _ => false
  end.

Definition is_null (c : cell) : bool :=
  match c with
  | Null => true
  | _ => false
  end.

Definition float_of_cell (c : cell) : option Q :=
  match c with
  | Num q => Some q
  | _ => None
  end.

(** dtype inference: numbers, possibly with missing entries, make a numeric
    column when pandas finds a machine dtype for them ([fits]: false, for
    one, when an integer does not fit 64 bits); anything else (all missing
    included) stays [object]. *)
Definition infer_column (fits : list cell -> bool) (l : list cell)
  : column :=
  if forallb (fun c => is_number c || is_null c) l && existsb is_number l
     && fits l
  then NumCol (map float_of_cell l)
  else ObjCol l.

Definition DataFrame_of_records (fits : list cell -> bool)
  (records : list record) : DataFrame :=
  mkDF (List.length records)
       (map (fun k =>
               (k, infer_column fits (map (fun r => lookup r k) records)))
            (record_keys records)).

Section World.

(** The catalog's [datastore_search] action (through [get_json]) and
    [pd.read_csv] on a URL. *)
Variable datastore_search : string -> Z -> result (list record).
Variable read_csv : string -> result DataFrame.
(** Python's [str.upper]. *)
Variable str_upper : string -> string.
(** Whether pandas finds a machine dtype for the numbers of a column. *)
Variable fits : list cell -> bool.

Definition cargar_recurso_datastore (resource_id : string) (limit : Z)
  : io DataFrame :=
  ([DatastoreSearch resource_id limit],
   rmap (DataFrame_of_records fits) (datastore_search resource_id limit)).

Definition pd_read_csv (u : string) : io DataFrame :=
  ([ReadCsv u], read_csv u).

Definition cargar_recurso (r : resource) (limit : Z)
  : io (option DataFrame) :=
  if truthy_bool (datastore_active r) then
    df <- cargar_recurso_datastore (id r) limit ;; ret (Some df)
  else if String.eqb (str_upper (or_empty (format r))) "CSV"
          && truthy_str (url r) then
    u <- subscript "url" (url r) ;;
    df <- pd_read_csv u ;; ret (Some df)
  else
    ret None.

End World.

End Loader.

(** ** Schema Profiler *)

Module Profiler.

Definition is_numcol (c : column) : bool :=
  match c with
  | NumCol _ => true
  | ObjCol _ => false
  end.

(** [df.select_dtypes(include="number").columns.tolist()] *)
Definition numeric_cols (df : DataFrame) : list string :=
  map fst (filter (fun nc => is_numcol (snd nc)) (columns df)).

Definition is_null (c : cell) : bool :=
  match c with
  | Null => true
  | _ => false
  end.

Definition is_unhashable (c : cell) : bool :=
  match c with
  | Unhashable _ => true
  | _ => false
  end.

Definition Q_of_bool (b : bool) : Q := if b then 1%Q else 0%Q.

(** Python's [==] on hashable scalars, as the hash table behind
    [Series.unique] sees it ([True == 1], [False == 0]). *)
Definition cell_eqb (x y : cell) : bool :=
  match x, y with
  | Null, Null => true
  | Num a, Num b => Qeq_bool a b
  | Num a, Bool b => Qeq_bool a (Q_of_bool b)
  | Bool a, Num b => Qeq_bool (Q_of_bool a) b
  | Bool a, Bool b => Bool.eqb a b
  | Str a, Str b => String.eqb a b
  | _, _ => false
  end.

(** [Series.unique()]: first occurrences, in order; hashing a nested list
    or dict raises [TypeError]. *)
Definition add_unique (seen : list cell) (x : cell) : list cell :=
  if existsb (cell_eqb x) seen then seen else seen ++ [x].

Definition unique (l : list cell) : result (list cell) :=
  if existsb is_unhashable l then Raise TypeError
  else Ok (fold_left add_unique l []).

(** [Series.nunique(dropna=True)] *)
Definition nunique (c : column) : result nat :=
  rbind (unique (cells c))
        (fun uniqs =>
           Ok (List.length (filter (fun x => negb (is_null x)) uniqs))).

(** [try: body except Exception: handler] *)
Definition try_except {A} (body : result A) (handler : exn -> result A)
  : result A :=
  match body with
  | Ok a => Ok a
  | Raise e => handler e
  end.

(** One turn of the [for c in df.columns] loop. *)
Definition low_cardinality_step (df : DataFrame) (max_unique : nat)
  (cols : list string) (c : string) : result (list string) :=
  try_except
    (rbind (getitem (columns df) c) (fun s =>
     rbind (nunique s) (fun nun =>
     Ok (if ((2 <=? nun) && (nun <=? max_unique))%nat
         then cols ++ [c] else cols))))
    (fun _ => Ok cols).

Fixpoint for_columns (df : DataFrame) (max_unique : nat)
  (names : list string) (cols : list string) : result (list string) :=
  match names with
  | [] => Ok cols
  | c :: rest =>
      rbind (low_cardinality_step df max_unique cols c)
            (for_columns df max_unique rest)
  end.

Definition low_cardinality_cols (df : DataFrame) (max_unique : nat)
  : result (list string) :=
  for_columns df max_unique (df_columns df) [].

(** The default of the keyword argument [max_unique]. *)
Definition max_unique_default : nat := 60.

(** What makes column [c] of [df] a categorical candidate. *)
Definition is_candidate (df : DataFrame) (max_unique : nat) (c : string)
  : Prop :=
  exists s n, getitem (columns df) c = Ok s /\ nunique s = Ok n /\
              (2 <= n <= max_unique)%nat.

End Profiler.

(** ** Descriptive statistics of a series without missing values *)

Module Stats.

Local Open Scope Q_scope.

Definition Q_of_nat (n : nat) : Q := inject_Z (Z.of_nat n).

(** The machine arithmetic of pandas on a non-empty series (float64, or
    int64 for sums and counts of integers): its results are rounded, and
    may wrap, so they are taken as given. *)
Record arith : Type := mkArith {
  np_sum : list Q -> Q;
  np_mean : list Q -> Q;
  np_median : list Q -> Q;
  np_quantile : list Q -> Q -> Q
}.

Section Machine.

Variable F : arith.

(** [s.sum()]: 0 on the empty series. *)
Definition sum (s : list Q) : Q :=
  match s with
  | [] => 0
  | _ => np_sum F s
  end.

(** [s.mean()]: NaN on the empty series. *)
Definition mean (s : list Q) : option Q :=
  match s with
  | [] => None
  | _ => Some (np_mean F s)
  end.

(** [s.median()]: NaN on the empty series. *)
Definition median (s : list Q) : option Q :=
  match s with
  | [] => None
  | _ => Some (np_median F s)
  end.

(** [s.quantile(p)]: NaN on the empty series. *)
Definition quantile (s : list Q) (p : Q) : option Q :=
  match s with
  | [] => None
  | _ => Some (np_quantile F s p)
  end.

End Machine.

Definition qmin (a b : Q) : Q := if Qle_bool a b then a else b.
Definition qmax (a b : Q) : Q := if Qle_bool a b then b else a.

(** [s.min()], [s.max()]: comparisons only, hence exact; NaN on the empty
    series. *)
Definition min (s : list Q) : option Q :=
  match s with
  | [] => None
  | x :: rest => Some (fold_left qmin rest x)
  end.

Definition max (s : list Q) : option Q :=
  match s with
  | [] => None
  | x :: rest => Some (fold_left qmax rest x)
  end.

(** *** The arithmetic without rounding

    An executable instance, equal to the machine's wherever every
    intermediate result is representable (small whole numbers, for one). *)

Definition exact_sum (s : list Q) : Q := fold_left Qplus s 0.

Definition exact_mean (s : list Q) : Q :=
  exact_sum s / Q_of_nat (List.length s).

Fixpoint insert_asc (x : Q) (l : list Q) : list Q :=
  match l with
  | [] => [x]
  | y :: rest => if Qle_bool x y then x :: l else y :: insert_asc x rest
  end.

Definition sort_asc (s : list Q) : list Q := fold_right insert_asc [] s.

(** Linear interpolation between the closest ranks: position
    [p * (n - 1)] in the ascending values. *)
Definition exact_quantile (s : list Q) (p : Q) : Q :=
  let sorted := sort_asc s in
  let pos := p * Q_of_nat (List.length s - 1) in
  let i := Z.to_nat (Qfloor pos) in
  let frac := pos - inject_Z (Qfloor pos) in
  let a := nth i sorted 0 in
  let b := nth (i + 1) sorted a in
  a + (b - a) * frac.

(** The middle value, or the mean of the two middle values. *)
Definition exact_median (s : list Q) : Q :=
  let sorted := sort_asc s in
  let n := List.length s in
  if Nat.odd n then nth (n / 2) sorted 0
  else (nth (n / 2 - 1) sorted 0 + nth (n / 2) sorted 0) / 2.

Definition exact : arith :=
  mkArith exact_sum exact_mean exact_median exact_quantile.

End Stats.

(** ** Filter and aggregation engine, narrative summarizer *)

Module Engine.

Import Profiler.
Local Open Scope Q_scope.

(** The three choices of the radio button. *)
Inductive modo : Type := Suma | Promedio | Conteo.

(** The three wordings of the automatic conclusion. *)
Inductive skew : Type :=
  | Positiva    (* "positiva (cola a la derecha)" *)
  | Negativa    (* "negativa (cola a la izquierda)" *)
  | Simetrica.  (* "aprox. simétrica" *)

(** [Series.dropna()] on a numeric series. *)
Fixpoint dropna (l : list (option Q)) : list Q :=
  match l with
  | [] => []
  | Some q :: rest => q :: dropna rest
  | None :: rest => dropna rest
  end.

(** Comparisons of a float with NaN are false. *)
Definition ge_nan (x : option Q) (b : Q) : bool :=
  match x with
  | Some v => Qle_bool b v
  | None => false
  end.

Definition le_nan (x : option Q) (b : Q) : bool :=
  match x with
  | Some v => Qle_bool v b
  | None => false
  end.

Definition gt_nan (x y : option Q) : bool :=
  match x, y with
  | Some a, Some b => negb (Qle_bool a b)
  | _, _ => false
  end.

(** [(df[col] >= lo) & (df[col] <= hi)] *)
Definition range_mask (values : list (option Q)) (lo hi : Q) : list bool :=
  map (fun x => ge_nan x lo && le_nan x hi) values.

(** Boolean indexing of one column. *)
Fixpoint select {A} (mask : list bool) (l : list A) : list A :=
  match mask, l with
  | true :: m, x :: rest => x :: select m rest
  | false :: m, _ :: rest => select m rest
  | _, _ => []
  end.

Definition select_column (mask : list bool) (c : column) : column :=
  match c with
  | NumCol l => NumCol (select mask l)
  | ObjCol l => ObjCol (select mask l)
  end.

(** [df[mask]] *)
Definition boolean_index (df : DataFrame) (mask : list bool) : DataFrame :=
  mkDF (List.length (filter (fun b => b) mask))
       (map (fun nc => (fst nc, select_column mask (snd nc))) (columns df)).

(** [df[name] = c] for a column that exists. *)
Definition setitem (df : DataFrame) (name : string) (c : column) : DataFrame :=
  mkDF (nrows df)
       (map (fun nc => if String.eqb (fst nc) name then (fst nc, c) else nc)
            (columns df)).

(** The float values of a numeric column; arithmetic and ordering on an
    object column are outside this model and reported as [TypeError]. *)
Definition floats (c : column) : result (list (option Q)) :=
  match c with
  | NumCol l => Ok l
  | ObjCol _ => Raise TypeError
  end.

(** The label of line 274. *)
Definition asim (F : Stats.arith) (s : list Q) : skew :=
  if gt_nan (Stats.mean F s) (Stats.median F s) then Positiva
  else if gt_nan (Stats.median F s) (Stats.mean F s) then Negativa
  else Simetrica.

(** The six KPI tiles.  ([s.describe()] below them repeats these figures
    and adds a standard deviation, which has no place among the
    rationals.) *)
Record kpis : Type := mkKpis {
  registros : nat;
  suma : Q;
  promedio : option Q;
  mediana : option Q;
  p90 : option Q;
  maximo : option Q
}.

Definition calcular_kpis (F : Stats.arith) (s : list Q) : kpis :=
  mkKpis (List.length s) (Stats.sum F s) (Stats.mean F s) (Stats.median F s)
         (Stats.quantile F s (9 # 10)) (Stats.max s).

(** *** Grouping *)

(** Adds one row to the groups, which are kept in ascending key order
    ([groupby] sorts the group keys). *)
Fixpoint add_row (k : string) (v : option Q)
  (groups : list (string * list (option Q)))
  : list (string * list (option Q)) :=
  match groups with
  | [] => [(k, [v])]
  | (k', vs) :: rest =>
      match String.compare k k' with
      | Eq => (k', vs ++ [v]) :: rest
      | Lt => (k, [v]) :: groups
      | Gt => (k', vs) :: add_row k v rest
      end
  end.

(** [tmp.groupby(cat)[col]] *)
Definition groupby (rows : list (string * option Q))
  : list (string * list (option Q)) :=
  fold_left (fun groups r => add_row (fst r) (snd r) groups) rows [].

(** The reduction of one group; missing values are skipped, and the mean
    of no value at all is NaN. *)
Definition reduce (F : Stats.arith) (m : modo) (vs : list (option Q))
  : option Q :=
  match m with
  | Suma => Some (Stats.sum F (dropna vs))
  | Promedio => Stats.mean F (dropna vs)
  | Conteo => Some (Stats.Q_of_nat (List.length (dropna vs)))
  end.

(** Descending order with NaN last: [geb_nanlast a b] says that [a] may
    stand before [b] in [sort_values(ascending=False)]. *)
Definition geb_nanlast (a b : option Q) : bool :=
  match a, b with
  | _, None => true
  | None, Some _ => false
  | Some x, Some y => Qle_bool y x
  end.

Definition same_value (a b : option Q) : bool :=
  match a, b with
  | None, None => true
  | Some x, Some y => Qeq_bool x y
  | _, _ => false
  end.

(** Order of two entries of the sorted grouped series. *)
Definition desc_nanlast (a b : string * option Q) : Prop :=
  geb_nanlast (snd a) (snd b) = true.

(** The inclusive range test, on a number. *)
Definition in_range (lo hi v : Q) : bool := Qle_bool lo v && Qle_bool v hi.

(** Category labels in order of first occurrence in the rows. *)
Fixpoint first_occurrences (keys : list string) : list string :=
  match keys with
  | [] => []
  | k :: rest =>
      k :: filter (fun k' => negb (String.eqb k' k)) (first_occurrences rest)
  end.

(** Position of a label in a list of labels. *)
Fixpoint index_of (k : string) (l : list string) : nat :=
  match l with
  | [] => 0
  | x :: rest => if String.eqb x k then 0 else S (index_of k rest)
  end.

(** Entries with equal values stand in the order their labels have in
    [order]. *)
Definition ties_follow (order : list string) (grp : list (string * option Q))
  : Prop :=
  forall i j e1 e2,
    (i < j)%nat -> nth_error grp i = Some e1 -> nth_error grp j = Some e2 ->
    same_value (snd e1) (snd e2) = true ->
    (index_of (fst e1) order < index_of (fst e2) order)%nat.

(** The labels of a grouped series. *)
Definition keys {V} (g : list (string * V)) : list string := map fst g.

(** Every group holds at least one row value, and only row values. *)
Definition groups_from (vals : list (option Q))
  (g : list (string * list (option Q))) : Prop :=
  forall k vs, In (k, vs) g -> vs <> [] /\ forall x, In x vs -> In x vals.

(** How many entries the bar chart shows. *)
Definition top_n : nat := 15.

(** The user's widget state: positions chosen in the select boxes, the
    slider pair ([None]: left at its initial value) and the radio button. *)
Record widgets : Type := mkWidgets {
  pick_col : nat;
  pick_rango : option (Q * Q);
  pick_cat : nat;
  pick_modo : modo
}.

(** [st.selectbox(label, options)]: one of the options, the first by
    default. *)
Definition selectbox (options : list string) (choice : nat) : string :=
  nth choice options (hd EmptyString options).

(** [st.slider(..., min_value=minv, max_value=maxv, value=(minv, maxv))]:
    the pair the user set, initially the full range.  The widget refuses
    equal bounds with a [StreamlitAPIException]. *)
Definition slider (minv maxv : Q) (choice : option (Q * Q))
  : result (Q * Q) :=
  if Qeq_bool minv maxv then Raise StreamlitAPIException
  else match choice with
       | Some r => Ok r
       | None => Ok (minv, maxv)
       end.

Inductive aviso : Type :=
  | SinColumnasNumericas
  | SinValoresNumericos.

(** What one run of the analysis part of the script leaves on the page. *)
Record report : Type := mkReport {
  indicador : string;
  df_f : DataFrame;
  s_filtrada : list Q;
  tiles : kpis;
  top15 : option (string * list (string * option Q));
  conclusion : skew
}.

Inductive outcome : Type :=
  | Stopped (w : aviso)
  | Rendered (r : report)
  | Uncaught (e : exn).

Notation "x <-- m ;; k" := (rbind m (fun x => k))
  (at level 61, m at next level, right associativity).

Section Library.

(** The machine arithmetic of the statistics. *)
Variable F : Stats.arith.
(** The text-to-number grammar of [pd.to_numeric]. *)
Variable floatify : string -> option Q.
(** Python's [str()] of a cell, as [astype(str)] applies it. *)
Variable str_of : cell -> string.
(** [Series.sort_values(ascending=False)] on the grouped series. *)
Variable sort_values_desc :
  list (string * option Q) -> list (string * option Q).

(** [errors="coerce"]: what does not parse becomes NaN. *)
Definition coerce_cell (c : cell) : option Q :=
  match c with
  | Null => None
  | Num q => Some q
  | Str s => floatify s
  | Bool b => Some (Q_of_bool b)
  | Unhashable _ => None
  end.

(** [pd.to_numeric(column, errors="coerce")] *)
Definition to_numeric (c : column) : column :=
  match c with
  | NumCol l => NumCol l
  | ObjCol l => NumCol (map coerce_cell l)
  end.

(** Lines 200-201: [serie]. *)
Definition preparar (c : column) : result (list Q) :=
  vals <-- floats (to_numeric c) ;; Ok (dropna vals).

(** Line 210: [df_f]. *)
Definition filtrar (df : DataFrame) (col : string) (lo hi : Q)
  : result DataFrame :=
  c <-- getitem (columns df) col ;;
  vals <-- floats c ;;
  Ok (boolean_index df (range_mask vals lo hi)).

(** Line 242: [cat_candidates]. *)
Definition cat_candidates (df_f : DataFrame) (col : string)
  : result (list string) :=
  cands <-- low_cardinality_cols df_f max_unique_default ;;
  Ok (filter (fun c => negb (String.eqb c col)) cands).

(** Lines 247-248: [tmp], as rows. *)
Definition tmp_rows (df_f : DataFrame) (cat col : string)
  : result (list (string * option Q)) :=
  cc <-- getitem (columns df_f) cat ;;
  vc <-- getitem (columns df_f) col ;;
  vals <-- floats vc ;;
  Ok (combine (map str_of (cells cc)) vals).

(** Lines 250-258: [grp]. *)
Definition agregar (df_f : DataFrame) (cat col : string) (m : modo)
  : result (list (string * option Q)) :=
  tmp <-- tmp_rows df_f cat col ;;
  Ok (firstn top_n
        (sort_values_desc
           (map (fun g => (fst g, reduce F m (snd g))) (groupby tmp)))).

(** Lines 241-268. *)
Definition top_por_categoria (df_f : DataFrame) (col : string) (ui : widgets)
  : result (option (string * list (string * option Q))) :=
  cands <-- cat_candidates df_f col ;;
  match cands with
  | [] => Ok None
  | _ =>
      let cat := selectbox cands (pick_cat ui) in
      grp <-- agregar df_f cat col (pick_modo ui) ;;
      Ok (Some (cat, grp))
  end.

(** Lines 207-274, once [serie] is known not to be empty. *)
Definition analizar_serie (df : DataFrame) (col : string) (serie : list Q)
  (ui : widgets) : result outcome :=
  match Stats.min serie, Stats.max serie with
  | Some minv, Some maxv =>
      rango <-- slider minv maxv (pick_rango ui) ;;
      df_f <-- filtrar df col (fst rango) (snd rango) ;;
      c <-- getitem (columns df_f) col ;;
      vals <-- floats c ;;
      let s := dropna vals in
      let k := calcular_kpis F s in
      top <-- top_por_categoria df_f col ui ;;
      Ok (Rendered (mkReport col df_f s k top (asim F s)))
  | _, _ => Raise TypeError
  end.

(** Lines 192-274: the analysis part of the script on a loaded table. *)
Definition analizar (df : DataFrame) (ui : widgets) : outcome :=
  match numeric_cols df with
  | [] => Stopped SinColumnasNumericas
  | num =>
      let col := selectbox num (pick_col ui) in
      let run :=
        c <-- getitem (columns df) col ;;
        let df := setitem df col (to_numeric c) in
        c' <-- getitem (columns df) col ;;
        vals <-- floats c' ;;
        let serie := dropna vals in
        match serie with
        | [] => Ok (Stopped SinValoresNumericos)
        | _ => analizar_serie df col serie ui
        end in
      match run with
      | Ok o => o
      | Raise e => Uncaught e
      end
  end.

End Library.

(** The tie rule "first occurrence first", for one table, category
    column, indicator and mode. *)
Definition ties_by_first_occurrence (F : Stats.arith)
  (str_of : cell -> string)
  (sort_values_desc : list (string * option Q) -> list (string * option Q))
  (df_f : DataFrame) (cat col : string) (m : modo) : Prop :=
  forall tmp grp,
    tmp_rows str_of df_f cat col = Ok tmp ->
    agregar F str_of sort_values_desc df_f cat col m = Ok grp ->
    ties_follow (first_occurrences (map fst tmp)) grp.

(** *** Executable instances of the library functions *)

(** A stable descending sort (insertion sort), NaN last. *)
Fixpoint insert_desc (x : string * option Q) (l : list (string * option Q))
  : list (string * option Q) :=
  match l with
  | [] => [x]
  | y :: rest =>
      if geb_nanlast (snd x) (snd y) then x :: l else y :: insert_desc x rest
  end.

Definition stable_sort_desc (l : list (string * option Q))
  : list (string * option Q) :=
  fold_right insert_desc [] l.

(** Signed decimal integers, the part of the number grammar the examples
    use. *)
Definition parse_int (s : string) : option Q :=
  match s with
  | EmptyString => None
  | _ => option_map (fun d => inject_Z (Z.of_int d)) (NilZero.int_of_string s)
  end.

(** Printed form of a cell, exact on whole numbers and text. *)
Definition print_cell (c : cell) : string :=
  match c with
  | Null => "nan"
  | Num q =>
      if (Z.pos (Qden q) =? 1)%Z then NilZero.string_of_int (Z.to_int (Qnum q))
      else (NilZero.string_of_int (Z.to_int (Qnum q)) ++ "/"
            ++ NilZero.string_of_uint (Pos.to_uint (Qden q)))%string
  | Str s => s
  | Bool true => "True"
  | Bool false => "False"
  | Unhashable repr => repr
  end.

End Engine.

(** ** Concrete data for the checks below *)

Module Ejemplos.

Import Loader Profiler Engine.
Local Open Scope Q_scope.

(** Three records of a structured store. *)
Definition registros_egresos : list record :=
  [ [("hospital", Str "A"); ("egresos", Num 10)];
    [("hospital", Str "B"); ("egresos", Num 20)];
    [("hospital", Str "A"); ("egresos", Num 30)] ].

(** A store that honours the limit it is sent. *)
Definition store (resource_id : string) (limit : Z) : result (list record) :=
  Ok (firstn (Z.to_nat limit) registros_egresos).

(** A CSV file of three rows behind every URL. *)
Definition tabla_csv : DataFrame :=
  mkDF 3 [("hospital", ObjCol [Str "A"; Str "B"; Str "A"]);
          ("egresos", NumCol [Some 10; Some 20; Some 30])].

Definition csv (u : string) : result DataFrame := Ok tabla_csv.

Definition recurso_datastore : resource :=
  mkResource "r1" (Some true) (Some "CSV") (Some "https://datos.gob.cl/r1.csv").

Definition recurso_csv : resource :=
  mkResource "r2" (Some false) (Some "csv")
             (Some "https://datos.gob.cl/r2.csv").

Definition recurso_pdf : resource :=
  mkResource "r3" None (Some "PDF") (Some "https://datos.gob.cl/r3.pdf").

(** A table whose indicator also has few distinct values. *)
Definition tabla_servicios : DataFrame :=
  mkDF 4 [("servicio", ObjCol [Str "urgencia"; Str "cirugia"; Str "urgencia";
                               Str "pediatria"]);
          ("egresos", NumCol [Some 5; Some 7; Some 5; None]);
          ("notas", ObjCol [Unhashable "[1]"; Null; Null; Null])].


(** Two tables with the same rows in opposite order. *)
Definition tabla_ba : DataFrame :=
  mkDF 2 [("servicio", ObjCol [Str "b"; Str "a"]);
          ("egresos", NumCol [Some 1; Some 1])].

Definition tabla_ab : DataFrame :=
  mkDF 2 [("servicio", ObjCol [Str "a"; Str "b"]);
          ("egresos", NumCol [Some 1; Some 1])].

End Ejemplos.

(** ** From the search results to the loaded table (lines 121-172) *)

Module Pagina.

Import Loader Profiler Engine.

(** A Python [dict] with string keys: insertion-ordered, one entry per
    key. *)
Definition dict (V : Type) : Type := list (string * V).

(** [d[k] = v]: a known key keeps its place and takes the new value, a new
    key goes last. *)
Fixpoint dict_setitem {V} (d : dict V) (k : string) (v : V) : dict V :=
  match d with
  | [] => [(k, v)]
  | (k', v') :: rest =>
      if String.eqb k' k then (k', v) :: rest
      else (k', v') :: dict_setitem rest k v
  end.

(** [d[k]] *)
Fixpoint dict_getitem {V} (d : dict V) (k : string) : result V :=
  match d with
  | [] => Raise (KeyError k)
  | (k', v) :: rest => if String.eqb k' k then Ok v else dict_getitem rest k
  end.

(** [list(d.keys())] *)
Definition dict_keys {V} (d : dict V) : list string := map fst d.

(** [{key(x): value(x) for x in items}], and the loop that fills
    [res_options]. *)
Definition dict_of {A V} (key : A -> string) (value : A -> V)
  (items : list A) : dict V :=
  fold_left (fun d x => dict_setitem d (key x) (value x)) items [].

(** One hit of [package_search], as far as the page reads it. *)
Record hit : Type := mkHit {
  hit_title : option string;
  hit_id : string
}.

(** [d.get('title', '(sin título)')] *)
Definition titulo (d : hit) : string :=
  match hit_title d with
  | Some t => t
  | None => "(sin título)"
  end.

(** Line 134: [options]. *)
Definition options (datasets : list hit) : dict string :=
  dict_of titulo hit_id datasets.

(** Lines 135-136: the select box over the titles and [ds_id]. *)
Definition elegir_dataset (datasets : list hit) (choice : nat)
  : result string :=
  let opts := options datasets in
  dict_getitem opts (selectbox (dict_keys opts) choice).

(** Lines 139-142: the description, cut after 900 characters.  The text
    is the sequence of its characters, of whatever alphabet [C]; [dot] is
    the full stop. *)
Definition resumen {C : Type} (dot : C) (notes : option (list C)) : list C :=
  let notes := match notes with Some t => t | None => [] end in
  firstn 900 notes
  ++ (if (900 <? List.length notes)%nat then [dot; dot; dot] else []).

(** One resource of the dataset, with the display name the loader does not
    read. *)
Record listed : Type := mkListed {
  name : option string;
  res : resource
}.

(** [r.get("name") or r.get("id")] *)
Definition name_or_id (r : listed) : string :=
  if truthy_str (name r) then or_empty (name r) else id (res r).

Section Etiquetas.

(** Python's [str.upper]. *)
Variable str_upper : string -> string.

(** Lines 156-159: the label of a resource in the select box. *)
Definition etiqueta (r : listed) : string :=
  (name_or_id r ++ " | " ++ str_upper (or_empty (format (res r))) ++ " | "
   ++ (if truthy_bool (datastore_active (res r))
       then "DataStore ✅" else "DataStore ❌"))%string.

(** Lines 154-159: [res_options]. *)
Definition res_options (resources : list listed) : dict resource :=
  dict_of etiqueta res resources.

(** Lines 161-162: the select box over the labels and [resource]. *)
Definition elegir_recurso (resources : list listed) (choice : nat)
  : result resource :=
  let opts := res_options resources in
  dict_getitem opts (selectbox (dict_keys opts) choice).

End Etiquetas.

(** [df.empty]: no row or no column. *)
Definition df_empty (df : DataFrame) : bool :=
  (nrows df =? 0)%nat || (List.length (columns df) =? 0)%nat.

(** Where the page ends once a resource is chosen. *)
Inductive final : Type :=
  | NoCargado                 (* "No se pudo cargar este recurso." *)
  | Analizado (o : outcome)
  | ErrorDeCarga (e : exn).   (* the exception of the load, uncaught *)

Section Mundo.

Variable datastore_search : string -> Z -> result (list record).
Variable read_csv : string -> result DataFrame.
Variable str_upper : string -> string.
Variable fits : list cell -> bool.
Variable F : Stats.arith.
Variable floatify : string -> option Q.
Variable str_of : cell -> string.
Variable sort_values_desc :
  list (string * option Q) -> list (string * option Q).

(** Lines 167-274: load the chosen resource, give up on nothing or on an
    empty table, otherwise analyse. *)
Definition cargar_y_analizar (r : resource) (limit : Z) (ui : widgets)
  : list request * final :=
  match cargar_recurso datastore_search read_csv str_upper fits
          r limit with
  | (log, Raise e) => (log, ErrorDeCarga e)
  | (log, Ok None) => (log, NoCargado)
  | (log, Ok (Some df)) =>
      if df_empty df then (log, NoCargado)
      else (log,
            Analizado (analizar F floatify str_of sort_values_desc df ui))
  end.

End Mundo.

End Pagina.

(** ** Notions used to state the properties *)

Module Nociones.

Import Profiler Engine.

(** Every column has one entry per row. *)
Definition well_formed (df : DataFrame) : Prop :=
  forall n c, In (n, c) (columns df) -> List.length (cells c) = nrows df.

(** The test of [low_cardinality_cols] on one column name. *)
Definition candidate_b (df : DataFrame) (max_unique : nat) (c : string)
  : bool :=
  match getitem (columns df) c with
  | Ok s =>
      match nunique s with
      | Ok nun => ((2 <=? nun) && (nun <=? max_unique))%nat
      | Raise _ => false
      end
  | Raise _ => false
  end.

(** The values of the rows that carry label [k], in row order. *)
Definition values_of (k : string) (rows : list (string * option Q))
  : list (option Q) :=
  map snd (filter (fun r => String.eqb (fst r) k) rows).

(** The last item with key [k]. *)
Fixpoint last_with {A} (key : A -> string) (k : string) (items : list A)
  : option A :=
  match items with
  | [] => None
  | x :: rest =>
      match last_with key k rest with
      | Some y => Some y
      | None => if String.eqb (key x) k then Some x else None
      end
  end.

(** The pair the slider hands back when its bounds differ. *)
Definition chosen_range (minv maxv : Q) (ui : widgets) : Q * Q :=
  match pick_rango ui with
  | Some r => r
  | None => (minv, maxv)
  end.

(** Text made of ASCII characters only. *)
Fixpoint ascii_only (s : string) : bool :=
  match s with
  | EmptyString => true
  | String a rest => (nat_of_ascii a <? 128)%nat && ascii_only rest
  end.

End Nociones.

(** ** More concrete data *)

Module Casos.

Import Loader Engine Pagina Ejemplos.
Local Open Scope Q_scope.

(** Every column of the examples has a machine dtype. *)
Definition cabe (l : list cell) : bool := true.

(** Nothing touched: first indicator, full range, first category, sums. *)
Definition ui_inicial : widgets := mkWidgets 0 None 0 Suma.

(** The slider moved to [(10, 20)], counts by category. *)
Definition ui_rango : widgets := mkWidgets 0 (Some (10, 20)) 0 Conteo.

(** Search results with a repeated title. *)
Definition resultados : list hit :=
  [mkHit (Some "Egresos hospitalarios") "ds-2019";
   mkHit None "ds-anon";
   mkHit (Some "Egresos hospitalarios") "ds-2020"].

(** Two resources that get the same label, and a third. *)
Definition recursos : list listed :=
  [mkListed (Some "egresos") recurso_csv;
   mkListed (Some "egresos")
            (mkResource "r9" None (Some "CSV")
                        (Some "https://datos.gob.cl/r9"));
   mkListed None recurso_datastore].


(** A one-row table. *)
Definition tabla_una_fila : DataFrame :=
  mkDF 1 [("servicio", ObjCol [Str "urgencia"]); ("egresos", NumCol [Some 5])].

End Casos.

(** * Properties *)

(** ** Resource Loader *)

Section LoaderFacts.

Import Loader Nociones.

Variable datastore_search : string -> Z -> result (list record).
Variable read_csv : string -> result DataFrame.
Variable str_upper : string -> string.
Variable fits : list cell -> bool.

Lemma upper_ascii_C (a : ascii) :
  upper_ascii a = "C"%char <-> a = "C"%char \/ a = "c"%char.
Proof.
  destruct a as [[] [] [] [] [] [] [] []]; vm_compute;
    split; intros H; try discriminate H; auto;
    destruct H as [H | H]; discriminate H.
Qed.

Lemma upper_ascii_S (a : ascii) :
  upper_ascii a = "S"%char <-> a = "S"%char \/ a = "s"%char.
Proof.
  destruct a as [[] [] [] [] [] [] [] []]; vm_compute;
    split; intros H; try discriminate H; auto;
    destruct H as [H | H]; discriminate H.
Qed.

Lemma upper_ascii_V (a : ascii) :
  upper_ascii a = "V"%char <-> a = "V"%char \/ a = "v"%char.
Proof.
  destruct a as [[] [] [] [] [] [] [] []]; vm_compute;
    split; intros H; try discriminate H; auto;
    destruct H as [H | H]; discriminate H.
Qed.

(** The format test accepts the eight casings of "csv" and nothing else. *)
Lemma upper_is_CSV (s : string) :
  upper s = "CSV" <->
  In s ["CSV"; "CSv"; "CsV"; "Csv"; "cSV"; "cSv"; "csV"; "csv"].
Proof.
  split.
  - destruct s as [| a [| b [| c [| d s]]]]; simpl; try discriminate.
    intros H. injection H as Ha Hb Hc.
    apply upper_ascii_C in Ha. apply upper_ascii_S in Hb.
    apply upper_ascii_V in Hc.
    destruct Ha as [-> | ->], Hb as [-> | ->], Hc as [-> | ->]; tauto.
  - intros H. repeat (destruct H as [<- | H]; [reflexivity |]). destruct H.
Qed.

(** C2. [cargar_recurso] follows exactly one strategy, in a fixed order:
    with [datastore_active] set it asks the structured store, and only the
    store; otherwise, with a format whose upper case is "CSV" and a
    non-empty URL, it reads the CSV at that URL, and only that; otherwise
    it asks nothing and returns [None].  Being a function of the resource,
    the limit and the answers of the outside world, it is deterministic.
    On ASCII text, where [str.upper] maps the letters a-z only, the format
    test accepts the eight casings of "csv" and nothing else. *)
Theorem cargar_recurso_strategy (r : resource) (limit : Z) :
  (truthy_bool (datastore_active r) = true ->
     cargar_recurso datastore_search read_csv str_upper fits
          r limit =
       ([DatastoreSearch (id r) limit],
        rmap (fun recs => Some (DataFrame_of_records fits recs))
             (datastore_search (id r) limit))
     /\ forall u,
          ~ In (ReadCsv u)
               (fst (cargar_recurso datastore_search read_csv str_upper fits
          r limit)))
  /\
  (truthy_bool (datastore_active r) = false ->
   str_upper (or_empty (format r)) = "CSV" ->
   forall u, url r = Some u -> u <> "" ->
     cargar_recurso datastore_search read_csv str_upper fits
          r limit
     = ([ReadCsv u], rmap Some (read_csv u)))
  /\
  (truthy_bool (datastore_active r) = false ->
   str_upper (or_empty (format r)) <> "CSV" \/ truthy_str (url r) = false ->
     cargar_recurso datastore_search read_csv str_upper fits
          r limit
     = ([], Ok None))
  /\
  ((forall s, ascii_only s = true -> str_upper s = upper s) ->
   ascii_only (or_empty (format r)) = true ->
   (str_upper (or_empty (format r)) = "CSV" <->
    In (or_empty (format r))
       ["CSV"; "CSv"; "CsV"; "Csv"; "cSV"; "cSv"; "csV"; "csv"])).
Proof.
  unfold cargar_recurso.
  split; [| split; [| split]];
    [split | | | intros Hup Hascii; rewrite (Hup _ Hascii);
                 apply upper_is_CSV].
  - rewrite H. unfold cargar_recurso_datastore, bind, rmap, rbind, ret.
    destruct (datastore_search (id r) limit); reflexivity.
  - rewrite H. unfold cargar_recurso_datastore, bind, rmap, rbind, ret.
    intros u.
    destruct (datastore_search (id r) limit); simpl;
      intros [Hc | Hc];
      [discriminate Hc | exact Hc | discriminate Hc | exact Hc].
  - intros Hds Hfmt u Hu Hne. rewrite Hds, Hfmt, Hu. simpl.
    destruct (String.eqb_spec u ""); [contradiction |]. simpl.
    unfold rmap, rbind. destruct (read_csv u); reflexivity.
  - intros Hds [Hfmt | Hurl]; rewrite Hds.
    + destruct (String.eqb_spec (str_upper (or_empty (format r))) "CSV");
        [contradiction | reflexivity].
    + rewrite Hurl, andb_false_r. reflexivity.
Qed.

(** C4. On the structured-store path the table has as many rows as the
    store returned records, so at most [limit] rows when the store honours
    the [limit] it is sent; on the CSV path the limit is never used: the
    whole parsed file is returned, whatever the limit. *)
Theorem row_cap_only_on_datastore (r : resource) (limit : Z) :
  (truthy_bool (datastore_active r) = true ->
   (forall recs, datastore_search (id r) limit = Ok recs ->
                 (Z.of_nat (List.length recs) <= limit)%Z) ->
   forall df,
     snd (cargar_recurso datastore_search read_csv str_upper fits
          r limit) = Ok (Some df) ->
     (Z.of_nat (nrows df) <= limit)%Z)
  /\
  (truthy_bool (datastore_active r) = false ->
   forall df,
     snd (cargar_recurso datastore_search read_csv str_upper fits
          r limit) = Ok (Some df) ->
     read_csv (or_empty (url r)) = Ok df /\
     forall limit',
       cargar_recurso datastore_search read_csv str_upper fits
          r limit'
       = ([ReadCsv (or_empty (url r))], Ok (Some df))).
Proof.
  unfold cargar_recurso. split.
  - intros Hds Hcap df. rewrite Hds.
    unfold cargar_recurso_datastore, bind, rmap, rbind, ret.
    destruct (datastore_search (id r) limit) as [recs | e] eqn:Hrecs;
      simpl; [| discriminate].
    intros H. injection H as <-. simpl. apply Hcap. reflexivity.
  - intros Hds df. rewrite Hds.
    destruct (String.eqb (str_upper (or_empty (format r))) "CSV"
              && truthy_str (url r)) eqn:Hcsv; simpl; [| discriminate].
    apply andb_true_iff in Hcsv. destruct Hcsv as [_ Hurl].
    destruct (url r) as [u |]; simpl in Hurl; [| discriminate].
    unfold or_empty.
    destruct (String.eqb_spec u ""); simpl in Hurl; [discriminate |].
    simpl. destruct (read_csv u) as [t | e] eqn:Ht; simpl; [| discriminate].
    intros H. injection H as <-. split; reflexivity.
Qed.

End LoaderFacts.

(** ** Schema Profiler *)

Section ProfilerFacts.

Import Profiler.

Lemma low_cardinality_step_ok df max_unique cols c :
  exists b : bool,
    low_cardinality_step df max_unique cols c
      = Ok (if b then cols ++ [c] else cols)
    /\ (b = true <-> is_candidate df max_unique c).
Proof.
  unfold low_cardinality_step, is_candidate, try_except, rbind.
  destruct (getitem (columns df) c) as [s | e] eqn:Hs.
  - destruct (nunique s) as [n | e] eqn:Hn.
    + exists ((2 <=? n) && (n <=? max_unique))%nat. split; [reflexivity |].
      rewrite andb_true_iff, !Nat.leb_le. split.
      * intros H. exists s, n. auto.
      * intros (s' & n' & Hs' & Hn' & H).
        injection Hs' as <-. rewrite Hn in Hn'. injection Hn' as <-. exact H.
    + exists false. split; [reflexivity |]. split; [discriminate |].
      intros (s' & n' & Hs' & Hn' & _).
      injection Hs' as <-. rewrite Hn in Hn'. discriminate Hn'.
  - exists false. split; [reflexivity |]. split; [discriminate |].
    intros (s' & n' & Hs' & _). discriminate Hs'.
Qed.

Lemma for_columns_ok df max_unique names :
  forall acc, exists cols,
    for_columns df max_unique names acc = Ok cols /\
    forall c, In c cols <->
              In c acc \/ (In c names /\ is_candidate df max_unique c).
Proof.
  induction names as [| x names IH]; intros acc; simpl.
  - exists acc. split; [reflexivity |]. intros c. tauto.
  - destruct (low_cardinality_step_ok df max_unique acc x) as (b & Hstep & Hb).
    rewrite Hstep. simpl.
    destruct (IH (if b then acc ++ [x] else acc)) as (cols & Hcols & Hin).
    exists cols. split; [exact Hcols |].
    intros c. rewrite Hin. destruct b.
    + rewrite in_app_iff. simpl. split.
      * intros [[H | [<- | []]] | [H Hq]]; auto.
        right. split; [left; reflexivity | apply Hb; reflexivity].
      * intros [H | [[<- | H] Hq]]; auto.
    + split.
      * intros [H | [H Hq]]; auto.
      * intros [H | [[<- | H] Hq]]; auto.
        apply Hb in Hq. discriminate Hq.
Qed.

Lemma getitem_In cols c s :
  getitem cols c = Ok s -> In c (map fst cols).
Proof.
  induction cols as [| [n x] cols IH]; simpl; [discriminate |].
  destruct (String.eqb_spec n c); auto.
Qed.

(** The classification is total and characterised by [is_candidate]. *)
Lemma low_cardinality_cols_ok df max_unique :
  exists cols,
    low_cardinality_cols df max_unique = Ok cols /\
    forall c, In c cols <-> is_candidate df max_unique c.
Proof.
  unfold low_cardinality_cols.
  destruct (for_columns_ok df max_unique (df_columns df) [])
    as (cols & H & Hin).
  exists cols. split; [exact H |]. intros c. rewrite Hin. simpl. split.
  - intros [[] | [_ Hq]]. exact Hq.
  - intros Hq. right. split; [| exact Hq].
    destruct Hq as (s & n & Hs & _). exact (getitem_In _ _ _ Hs).
Qed.

(** C8. [low_cardinality_cols] returns, for every table, without raising:
    a column is in the answer exactly when its number of distinct non-null
    values is between 2 and 60, both included, and a column whose
    [nunique] raises is left out. *)
Theorem low_cardinality_cols_never_raises (df : DataFrame) :
  exists cols,
    low_cardinality_cols df max_unique_default = Ok cols /\
    (forall c, In c cols <->
       exists s n, getitem (columns df) c = Ok s /\ nunique s = Ok n /\
                   (2 <= n <= 60)%nat) /\
    (forall c s e, getitem (columns df) c = Ok s -> nunique s = Raise e ->
                   ~ In c cols).
Proof.
  destruct (low_cardinality_cols_ok df max_unique_default) as (cols & H & Hin).
  exists cols. split; [exact H |]. split.
  - exact Hin.
  - intros c s e Hs Hn Hc. apply Hin in Hc.
    destruct Hc as (s' & n & Hs' & Hn' & _).
    rewrite Hs in Hs'. injection Hs' as <-. rewrite Hn in Hn'. discriminate Hn'.
Qed.

(** C10. The candidates offered for the Top-15 chart never contain the
    selected indicator: they are the low-cardinality columns of the
    filtered table other than [col], even when [col] is one of them. *)
Theorem cat_candidates_exclude_indicator (df_f : DataFrame) (col : string) :
  exists low cands,
    low_cardinality_cols df_f max_unique_default = Ok low /\
    Engine.cat_candidates df_f col = Ok cands /\
    ~ In col cands /\
    (forall c, In c cands <-> In c low /\ c <> col).
Proof.
  destruct (low_cardinality_cols_ok df_f max_unique_default) as (low & H & _).
  exists low, (filter (fun c => negb (String.eqb c col)) low).
  unfold Engine.cat_candidates. rewrite H. simpl.
  split; [reflexivity |]. split; [reflexivity |]. split.
  - rewrite filter_In, String.eqb_refl. intros [_ Hf]. discriminate Hf.
  - intros c. rewrite filter_In, negb_true_iff.
    destruct (String.eqb_spec c col); intuition congruence.
Qed.

End ProfilerFacts.

(** ** Numeric coercion and the range filter *)

Section CoercionFacts.

Import Profiler Engine.
Local Open Scope Q_scope.

Variable floatify : string -> option Q.


End CoercionFacts.

Section FilterFacts.

Import Profiler Engine.
Local Open Scope Q_scope.

Lemma getitem_boolean_index df mask col :
  getitem (columns (boolean_index df mask)) col
  = rmap (select_column mask) (getitem (columns df) col).
Proof.
  unfold boolean_index. simpl.
  induction (columns df) as [| [n c] cols IH]; simpl; [reflexivity |].
  destruct (String.eqb n col); [reflexivity | exact IH].
Qed.

Lemma dropna_select_range (vals : list (option Q)) (lo hi : Q) :
  dropna (select (range_mask vals lo hi) vals)
  = filter (in_range lo hi) (dropna vals).
Proof.
  unfold range_mask, in_range.
  induction vals as [| [q |] vals IH]; simpl; [reflexivity | | exact IH].
  destruct (Qle_bool lo q && Qle_bool q hi); simpl; congruence.
Qed.

Lemma Qle_bool_total (a b : Q) : Qle_bool a b = false -> b <= a.
Proof.
  intros H. apply Qlt_le_weak, Qnot_le_lt. intros Hle.
  apply Qle_bool_iff in Hle. congruence.
Qed.

Lemma fold_qmin_le (l : list Q) :
  forall x, fold_left Stats.qmin l x <= x /\
            forall v, In v l -> fold_left Stats.qmin l x <= v.
Proof.
  induction l as [| y l IH]; intros x; simpl.
  - split; [apply Qle_refl | intros v []].
  - destruct (IH (Stats.qmin x y)) as [H1 H2].
    assert (Hx : Stats.qmin x y <= x /\ Stats.qmin x y <= y).
    { unfold Stats.qmin. destruct (Qle_bool x y) eqn:E.
      - split; [apply Qle_refl | apply Qle_bool_iff; exact E].
      - split; [apply Qle_bool_total; exact E | apply Qle_refl]. }
    destruct Hx as [Hx Hy]. split.
    + eapply Qle_trans; eauto.
    + intros v [<- | Hv]; [eapply Qle_trans; eauto | auto].
Qed.

Lemma fold_qmax_ge (l : list Q) :
  forall x, x <= fold_left Stats.qmax l x /\
            forall v, In v l -> v <= fold_left Stats.qmax l x.
Proof.
  induction l as [| y l IH]; intros x; simpl.
  - split; [apply Qle_refl | intros v []].
  - destruct (IH (Stats.qmax x y)) as [H1 H2].
    assert (Hx : x <= Stats.qmax x y /\ y <= Stats.qmax x y).
    { unfold Stats.qmax. destruct (Qle_bool x y) eqn:E.
      - split; [apply Qle_bool_iff; exact E | apply Qle_refl].
      - split; [apply Qle_refl | apply Qle_bool_total; exact E]. }
    destruct Hx as [Hx Hy]. split.
    + eapply Qle_trans; eauto.
    + intros v [<- | Hv]; [eapply Qle_trans; eauto | auto].
Qed.

Lemma min_max_bound (serie : list Q) (minv maxv : Q) :
  Stats.min serie = Some minv -> Stats.max serie = Some maxv ->
  forall v, In v serie -> minv <= v <= maxv.
Proof.
  destruct serie as [| x l]; simpl; [discriminate |].
  intros Hmin Hmax. injection Hmin as <-. injection Hmax as <-.
  destruct (fold_qmin_le l x) as [H1 H2], (fold_qmax_ge l x) as [H3 H4].
  intros v [<- | Hv]; split; auto.
Qed.

Lemma filter_all {A} (f : A -> bool) (l : list A) :
  (forall x, In x l -> f x = true) -> filter f l = l.
Proof.
  induction l as [| x l IH]; simpl; intros H; [reflexivity |].
  rewrite (H x (or_introl eq_refl)), IH; auto.
Qed.

(** C6. The filter keeps exactly the values between [lo] and [hi], both
    bounds included, and with the minimum and maximum of a (then non-empty)
    series as bounds it returns the series unchanged. *)
Theorem range_filter_inclusive
  (df : DataFrame) (col : string) (vals : list (option Q)) (lo hi : Q) :
  getitem (columns df) col = Ok (NumCol vals) ->
  exists df_f vals_f,
    filtrar df col lo hi = Ok df_f /\
    getitem (columns df_f) col = Ok (NumCol vals_f) /\
    dropna vals_f
      = filter (fun v => Qle_bool lo v && Qle_bool v hi) (dropna vals) /\
    (forall v, In v (dropna vals_f) <-> In v (dropna vals) /\ lo <= v <= hi) /\
    (Stats.min (dropna vals) = Some lo -> Stats.max (dropna vals) = Some hi ->
     dropna vals_f = dropna vals).
Proof.
  intros Hcol.
  exists (boolean_index df (range_mask vals lo hi)),
         (select (range_mask vals lo hi) vals).
  split; [unfold filtrar; rewrite Hcol; reflexivity |]. split.
  { rewrite getitem_boolean_index, Hcol. reflexivity. }
  rewrite dropna_select_range. split; [reflexivity |]. split.
  - intros v. rewrite filter_In. unfold in_range.
    rewrite andb_true_iff, !Qle_bool_iff. tauto.
  - intros Hmin Hmax. apply filter_all. intros v Hv.
    destruct (min_max_bound _ _ _ Hmin Hmax v Hv) as [H1 H2].
    unfold in_range. apply andb_true_iff. rewrite !Qle_bool_iff. auto.
Qed.

End FilterFacts.

(** ** The analysis run: where it stops and what it still computes *)

Section RunFacts.

Import Profiler Engine.
Local Open Scope Q_scope.

Variable F : Stats.arith.
Variable floatify : string -> option Q.
Variable str_of : cell -> string.
Variable sort_values_desc :
  list (string * option Q) -> list (string * option Q).

Lemma getitem_setitem df col c c' :
  getitem (columns df) col = Ok c ->
  getitem (columns (setitem df col c')) col = Ok c'.
Proof.
  unfold setitem. simpl.
  induction (columns df) as [| [n x] cols IH]; simpl; [discriminate |].
  destruct (String.eqb_spec n col) as [-> | Hne]; simpl.
  - intros _. rewrite String.eqb_refl. reflexivity.
  - intros H. destruct (String.eqb_spec n col); [contradiction | auto].
Qed.

(** The guard of lines 203-205: a selected column without any valid number
    stops the run before the range filter and the statistics. *)
Lemma analizar_stops_on_empty_serie (df : DataFrame) (ui : widgets) c :
  numeric_cols df <> [] ->
  getitem (columns df) (selectbox (numeric_cols df) (pick_col ui)) = Ok c ->
  preparar floatify c = Ok [] ->
  analizar F floatify str_of sort_values_desc df ui
    = Stopped SinValoresNumericos.
Proof.
  intros Hnum Hc Hs. unfold analizar.
  destruct (numeric_cols df) as [| n0 num] eqn:En; [contradiction |].
  set (col := selectbox (n0 :: num) (pick_col ui)) in *.
  rewrite Hc. cbv beta iota delta [rbind].
  rewrite (getitem_setitem _ _ _ (to_numeric floatify c) Hc).
  unfold preparar, rbind in Hs.
  destruct (floats (to_numeric floatify c)) as [vals | e]; [| discriminate].
  injection Hs as ->. reflexivity.
Qed.

(** C1, on the code.  No such guard follows the range filter: with
    [egresos = [1; 100]] and the slider moved to [(40, 60)] the filtered
    series is empty and the run still goes through the KPI block (count 0,
    sum 0, NaN mean, median, P90 and maximum) and prints the skew label
    "aprox. simétrica". *)
Theorem analizar_runs_on_empty_filtered_serie :
  analizar F floatify str_of sort_values_desc
    (mkDF 2 [("hospital"%string, ObjCol [Str "A"; Str "B"]);
             ("egresos"%string, NumCol [Some 1; Some 100])])
    (mkWidgets 0 (Some (40, 60)) 0 Suma)
  = Rendered
      (mkReport "egresos"
         (mkDF 0 [("hospital"%string, ObjCol []);
                  ("egresos"%string, NumCol [])])
         []
         (mkKpis 0 0 None None None None)
         None
         Simetrica).
Proof. reflexivity. Qed.

End RunFacts.

(** ** Narrative Summarizer *)

Section SkewFacts.

Import Engine.
Local Open Scope Q_scope.

Variable F : Stats.arith.

Lemma mean_median_defined (s : list Q) :
  s <> [] ->
  Stats.mean F s = Some (Stats.np_mean F s) /\
  Stats.median F s = Some (Stats.np_median F s).
Proof.
  destruct s as [| x l]; [contradiction |]. intros _. split; reflexivity.
Qed.

Lemma gt_nan_iff (a b : Q) : gt_nan (Some a) (Some b) = true <-> b < a.
Proof.
  simpl. rewrite negb_true_iff. split.
  - intros H. apply Qnot_le_lt. intros Hle. apply Qle_bool_iff in Hle.
    congruence.
  - intros H. destruct (Qle_bool a b) eqn:E; [| reflexivity].
    apply Qle_bool_iff in E. exfalso. exact (Qlt_not_le _ _ H E).
Qed.

(** The label against the two numbers the library returns. *)
Lemma asim_three_way (s : list Q) (m md : Q) :
  Stats.mean F s = Some m -> Stats.median F s = Some md ->
  (asim F s = Positiva <-> md < m) /\
  (asim F s = Negativa <-> m < md) /\
  (asim F s = Simetrica <-> m == md).
Proof.
  intros Hm Hmd. unfold asim. rewrite Hm, Hmd.
  destruct (gt_nan (Some m) (Some md)) eqn:E1.
  - apply gt_nan_iff in E1. repeat split; intros H; try discriminate H; auto.
    + exfalso. exact (Qlt_irrefl _ (Qlt_trans _ _ _ H E1)).
    + exfalso. rewrite H in E1. exact (Qlt_irrefl _ E1).
  - destruct (gt_nan (Some md) (Some m)) eqn:E2.
    + apply gt_nan_iff in E2. repeat split; intros H; try discriminate H; auto.
      * apply gt_nan_iff in H. congruence.
      * exfalso. rewrite H in E2. exact (Qlt_irrefl _ E2).
    + repeat split; intros H; try discriminate H; auto.
      * apply gt_nan_iff in H. congruence.
      * apply gt_nan_iff in H. congruence.
      * apply Qle_antisym; apply Qnot_lt_le; intros Hlt;
          apply gt_nan_iff in Hlt; congruence.
Qed.

(** C9. On a non-empty series the label compares the mean and the median
    that pandas returns: positive exactly when the mean is above the
    median, negative exactly when it is below, symmetric exactly when they
    are equal; [[1;2;3;4;100]], where they are 22 and 3, is positive and
    [[1;2;3;4;5]], where both are 3, symmetric. *)
Theorem asim_by_mean_and_median :
  (forall s : list Q, s <> [] ->
     exists m md,
       Stats.mean F s = Some m /\ Stats.median F s = Some md /\
       (asim F s = Positiva <-> md < m) /\
       (asim F s = Negativa <-> m < md) /\
       (asim F s = Simetrica <-> m == md))
  /\ (Stats.np_mean F [1; 2; 3; 4; 100] == 22 ->
      Stats.np_median F [1; 2; 3; 4; 100] == 3 ->
      asim F [1; 2; 3; 4; 100] = Positiva)
  /\ (Stats.np_mean F [1; 2; 3; 4; 5] == 3 ->
      Stats.np_median F [1; 2; 3; 4; 5] == 3 ->
      asim F [1; 2; 3; 4; 5] = Simetrica).
Proof.
  split; [| split].
  - intros s Hs. destruct (mean_median_defined s Hs) as [Hm Hmd].
    exists (Stats.np_mean F s), (Stats.np_median F s).
    split; [exact Hm |]. split; [exact Hmd |].
    exact (asim_three_way s _ _ Hm Hmd).
  - intros Hm Hmd.
    apply (asim_three_way [1; 2; 3; 4; 100] _ _ eq_refl eq_refl).
    rewrite Hm, Hmd. reflexivity.
  - intros Hm Hmd.
    apply (asim_three_way [1; 2; 3; 4; 5] _ _ eq_refl eq_refl).
    rewrite Hm, Hmd. reflexivity.
Qed.

End SkewFacts.

(** ** Top-15 aggregation *)

Section GroupFacts.

Import Engine.
Local Open Scope Q_scope.

Variable F : Stats.arith.

Lemma add_row_keys_In k v g k' :
  In k' (keys (add_row k v g)) <-> k' = k \/ In k' (keys g).
Proof.
  induction g as [| [k0 vs] g IH]; simpl.
  - intuition.
  - destruct (String.compare k k0) eqn:E; simpl.
    + apply String_as_OT.cmp_eq in E. subst k0. intuition.
    + intuition.
    + rewrite IH. intuition.
Qed.

Lemma add_row_sorted k v g :
  StronglySorted String_as_OT.lt (keys g) ->
  StronglySorted String_as_OT.lt (keys (add_row k v g)).
Proof.
  induction g as [| [k0 vs] g IH]; simpl; intros Hs.
  - constructor; constructor.
  - inversion Hs as [| ? ? Hs' Hall]; subst.
    destruct (String.compare k k0) eqn:E; simpl.
    + exact Hs.
    + apply String_as_OT.cmp_lt in E. constructor; [exact Hs |].
      constructor; [exact E |].
      eapply Forall_impl; [| exact Hall].
      intros x Hx. exact (String_as_OT.lt_trans _ _ _ E Hx).
    + assert (Hlt : String_as_OT.lt k0 k).
      { apply String_as_OT.cmp_lt. fold (String.compare k0 k).
        rewrite String.compare_antisym, E. reflexivity. }
      constructor; [apply IH; exact Hs' |].
      apply Forall_forall. intros x Hx. apply add_row_keys_In in Hx.
      destruct Hx as [-> | Hx]; [exact Hlt |].
      rewrite Forall_forall in Hall. auto.
Qed.

Lemma add_row_groups_from vals k v g :
  In v vals -> groups_from vals g -> groups_from vals (add_row k v g).
Proof.
  intros Hv. induction g as [| [k0 vs0] g IH]; simpl; intros Hg k' vs Hin.
  - destruct Hin as [Hin | []]. injection Hin as <- <-.
    split; [discriminate |]. intros x [<- | []]. exact Hv.
  - assert (Hg' : groups_from vals g).
    { intros a b Hab. apply (Hg a b). right. exact Hab. }
    destruct (String.compare k k0) eqn:E.
    + destruct Hin as [Hin | Hin].
      * injection Hin as <- <-.
        destruct (Hg k0 vs0 (or_introl eq_refl)) as [_ Hsub]. split.
        -- destruct vs0; discriminate.
        -- intros x Hx. apply in_app_iff in Hx.
           destruct Hx as [Hx | [<- | []]]; auto.
      * apply (Hg k' vs). right. exact Hin.
    + destruct Hin as [Hin | Hin].
      * injection Hin as <- <-. split; [discriminate |].
        intros x [<- | []]. exact Hv.
      * apply (Hg k' vs). exact Hin.
    + destruct Hin as [Hin | Hin].
      * apply (Hg k' vs). left. exact Hin.
      * apply (IH Hg' k' vs Hin).
Qed.

Lemma fold_add_row rows :
  forall g,
    let g' :=
      fold_left (fun groups r => add_row (fst r) (snd r) groups) rows g in
    (StronglySorted String_as_OT.lt (keys g) ->
     StronglySorted String_as_OT.lt (keys g')) /\
    (forall k, In k (keys g') <-> In k (keys g) \/ In k (map fst rows)) /\
    (forall vals, incl (map snd rows) vals ->
                  groups_from vals g -> groups_from vals g').
Proof.
  induction rows as [| [k v] rows IH]; intros g; simpl.
  - split; [auto | split; [intros k; tauto | auto]].
  - destruct (IH (add_row k v g)) as (H1 & H2 & H3). simpl in *.
    split; [| split].
    + intros Hs. apply H1. apply add_row_sorted. exact Hs.
    + intros k'. rewrite H2, add_row_keys_In. intuition.
    + intros vals Hincl Hg. apply H3.
      * intros x Hx. apply Hincl. right. exact Hx.
      * apply add_row_groups_from; [| exact Hg].
        apply Hincl. left. reflexivity.
Qed.

Lemma groupby_keys_sorted rows :
  StronglySorted String_as_OT.lt (keys (groupby rows)).
Proof.
  apply (proj1 (fold_add_row rows [])). constructor.
Qed.

Lemma groupby_keys_In rows k :
  In k (keys (groupby rows)) <-> In k (map fst rows).
Proof.
  unfold groupby. rewrite (proj1 (proj2 (fold_add_row rows [])) k).
  simpl. tauto.
Qed.

Lemma groupby_groups_from rows :
  groups_from (map snd rows) (groupby rows).
Proof.
  apply (proj2 (proj2 (fold_add_row rows []))).
  - apply incl_refl.
  - intros k vs [].
Qed.

Lemma sorted_keys_NoDup (l : list string) :
  StronglySorted String_as_OT.lt l -> NoDup l.
Proof.
  induction 1 as [| x l Hs IH Hall]; constructor; [| exact IH].
  intros Hin. rewrite Forall_forall in Hall.
  exact (String_as_OT.lt_not_eq _ _ (Hall x Hin) eq_refl).
Qed.

(** There is one group per distinct category label. *)
Lemma groupby_length rows :
  List.length (groupby rows)
  = List.length (nodup string_dec (map fst rows)).
Proof.
  rewrite <- (length_map fst (groupby rows)).
  apply Permutation_length, NoDup_Permutation.
  - apply sorted_keys_NoDup, groupby_keys_sorted.
  - apply NoDup_nodup.
  - intros k. fold (keys (groupby rows)).
    rewrite groupby_keys_In, nodup_In. tauto.
Qed.

Lemma keys_reduce m (g : list (string * list (option Q))) :
  keys (map (fun x => (fst x, reduce F m (snd x))) g) = keys g.
Proof.
  unfold keys. rewrite map_map. reflexivity.
Qed.

Lemma dropna_all_some (vs : list (option Q)) :
  vs <> [] -> (forall x, In x vs -> x <> None) -> dropna vs <> [].
Proof.
  destruct vs as [| [q |] vs]; simpl; intros H1 H2.
  - contradiction.
  - discriminate.
  - exfalso. exact (H2 None (or_introl eq_refl) eq_refl).
Qed.

Lemma reduce_is_number m vs :
  vs <> [] -> (forall x, In x vs -> x <> None) ->
  exists q, reduce F m vs = Some q.
Proof.
  intros H1 H2. destruct m; simpl; try (eexists; reflexivity).
  pose proof (dropna_all_some vs H1 H2) as Hd.
  unfold Stats.mean. destruct (dropna vs); [contradiction |].
  eexists; reflexivity.
Qed.

End GroupFacts.

Section SortFacts.

Import Engine.
Local Open Scope Q_scope.

Lemma geb_nanlast_trans a b c :
  geb_nanlast a b = true -> geb_nanlast b c = true -> geb_nanlast a c = true.
Proof.
  destruct a as [x |], b as [y |], c as [z |]; simpl; try congruence.
  rewrite !Qle_bool_iff. intros H1 H2. exact (Qle_trans _ _ _ H2 H1).
Qed.

Lemma geb_nanlast_total a b :
  geb_nanlast a b = false -> geb_nanlast b a = true.
Proof.
  destruct a as [x |], b as [y |]; simpl; try congruence.
  intros H. apply Qle_bool_iff. apply Qle_bool_total. exact H.
Qed.

Lemma desc_nanlast_trans : Relations_1.Transitive desc_nanlast.
Proof.
  intros a b c. unfold desc_nanlast. apply geb_nanlast_trans.
Qed.

Lemma In_firstn {A} (x : A) (l : list A) :
  forall n, In x (firstn n l) -> In x l.
Proof.
  induction l as [| y l IH]; intros [| n]; simpl; try tauto.
  intros [H | H]; [left; exact H | right; exact (IH n H)].
Qed.

Lemma StronglySorted_firstn {A} (R : A -> A -> Prop) (l : list A) :
  StronglySorted R l -> forall n, StronglySorted R (firstn n l).
Proof.
  induction 1 as [| x l Hs IH Hall]; intros [| n]; simpl; try constructor.
  - apply IH.
  - rewrite Forall_forall in *. intros y Hy. apply Hall.
    exact (In_firstn _ _ _ Hy).
Qed.

(** *** The insertion sort is a stable descending sort *)

Lemma insert_desc_perm x l : Permutation (insert_desc x l) (x :: l).
Proof.
  induction l as [| y l IH]; simpl; [reflexivity |].
  destruct (geb_nanlast (snd x) (snd y)); [reflexivity |].
  rewrite IH. apply perm_swap.
Qed.

Lemma stable_sort_desc_perm l : Permutation (stable_sort_desc l) l.
Proof.
  induction l as [| x l IH]; simpl; [reflexivity |].
  rewrite insert_desc_perm. constructor. exact IH.
Qed.

Lemma insert_desc_sorted x l :
  Sorted desc_nanlast l -> Sorted desc_nanlast (insert_desc x l).
Proof.
  induction l as [| y l IH]; simpl; intros Hs.
  - repeat constructor.
  - destruct (geb_nanlast (snd x) (snd y)) eqn:E.
    + constructor; [exact Hs |]. constructor. exact E.
    + inversion Hs as [| ? ? Hs' Hhd]; subst.
      constructor; [apply IH; exact Hs' |].
      destruct l as [| z l]; simpl.
      * constructor. apply geb_nanlast_total. exact E.
      * destruct (geb_nanlast (snd x) (snd z)).
        -- constructor. apply geb_nanlast_total. exact E.
        -- inversion Hhd; subst. constructor. assumption.
Qed.

Lemma stable_sort_desc_sorted l : Sorted desc_nanlast (stable_sort_desc l).
Proof.
  induction l as [| x l IH]; simpl; [constructor |].
  apply insert_desc_sorted. exact IH.
Qed.

End SortFacts.

Section AggregateFacts.

Import Engine.
Local Open Scope Q_scope.

Variable F : Stats.arith.

Variable str_of : cell -> string.
Variable sort_values_desc :
  list (string * option Q) -> list (string * option Q).

(** What the documentation of [sort_values] promises. *)
Hypothesis sort_perm : forall l, Permutation (sort_values_desc l) l.
Hypothesis sort_sorted : forall l, Sorted desc_nanlast (sort_values_desc l).

(** C5. The grouped series has [min 15 n] entries for [n] distinct
    category labels, hence at most 15; every earlier value is at least
    every later one (NaN last, and no NaN when the value column has no
    missing entry); with fewer than 15 labels each label appears exactly
    once and nothing else does. *)
Theorem agregar_top15 (df_f : DataFrame) (cat col : string) (m : modo)
  (tmp : list (string * option Q)) :
  tmp_rows str_of df_f cat col = Ok tmp ->
  exists grp,
    agregar F str_of sort_values_desc df_f cat col m = Ok grp /\
    List.length grp
      = Nat.min 15 (List.length (nodup string_dec (map fst tmp))) /\
    (List.length grp <= 15)%nat /\
    StronglySorted desc_nanlast grp /\
    ((forall r, In r tmp -> snd r <> None) ->
     forall e, In e grp -> exists q, snd e = Some q) /\
    ((List.length (nodup string_dec (map fst tmp)) < 15)%nat ->
     List.length grp = List.length (nodup string_dec (map fst tmp)) /\
     NoDup (map fst grp) /\
     forall k, In k (map fst grp) <-> In k (map fst tmp)).
Proof.
  intros Htmp. unfold agregar. rewrite Htmp. simpl rbind.
  set (red := map (fun g => (fst g, reduce F m (snd g))) (groupby tmp)).
  exists (firstn top_n (sort_values_desc red)).
  assert (Hlen : List.length (sort_values_desc red)
                 = List.length (nodup string_dec (map fst tmp))).
  { rewrite (Permutation_length (sort_perm red)). unfold red.
    rewrite length_map. apply groupby_length. }
  split; [reflexivity |]. split; [| split; [| split; [| split]]].
  - rewrite length_firstn, Hlen. reflexivity.
  - rewrite length_firstn. apply Nat.le_min_l.
  - apply StronglySorted_firstn. apply Sorted_StronglySorted.
    + exact desc_nanlast_trans.
    + apply sort_sorted.
  - intros Hnum [k v] He. apply In_firstn in He.
    apply (Permutation_in _ (sort_perm red)) in He.
    unfold red in He. apply in_map_iff in He.
    destruct He as ([k' vs] & Heq & Hin). simpl in Heq.
    injection Heq as -> <-. simpl.
    destruct (groupby_groups_from tmp k vs Hin) as [Hne Hsub].
    apply reduce_is_number; [exact Hne |].
    intros x Hx. apply Hsub in Hx. apply in_map_iff in Hx.
    destruct Hx as (r & <- & Hr). apply Hnum. exact Hr.
  - intros Hfew.
    assert (Hall : firstn top_n (sort_values_desc red) = sort_values_desc red).
    { apply firstn_all2. rewrite Hlen. unfold top_n. lia. }
    rewrite Hall.
    assert (Hk : Permutation (map fst (sort_values_desc red))
                             (keys (groupby tmp))).
    { rewrite (Permutation_map fst (sort_perm red)). unfold red.
      fold (keys (map (fun g => (fst g, reduce F m (snd g))) (groupby tmp))).
      rewrite keys_reduce. reflexivity. }
    split; [exact Hlen |]. split.
    + apply (Permutation_NoDup (Permutation_sym Hk)).
      apply sorted_keys_NoDup, groupby_keys_sorted.
    + intros k. rewrite <- (groupby_keys_In tmp k). split; intros H.
      * exact (Permutation_in _ Hk H).
      * exact (Permutation_in _ (Permutation_sym Hk) H).
Qed.



(** ** The properties at concrete inputs *)

Lemma sorted_labels_unique (l1 : list string) :
  forall l2,
    StronglySorted String_as_OT.lt l1 ->
    StronglySorted String_as_OT.lt l2 ->
    (forall k, In k l1 <-> In k l2) ->
    l1 = l2.
Proof.
  induction l1 as [| a l1 IH]; intros [| b l2] H1 H2 Heq.
  - reflexivity.
  - exfalso. apply (proj2 (Heq b)). left. reflexivity.
  - exfalso. apply (proj1 (Heq a)). left. reflexivity.
  - inversion H1 as [| ? ? H1' Ha]; subst.
    inversion H2 as [| ? ? H2' Hb]; subst.
    rewrite Forall_forall in Ha, Hb.
    assert (Hab : a = b).
    { destruct (proj1 (Heq a) (or_introl eq_refl)) as [E | Hin]; [auto |].
      destruct (proj2 (Heq b) (or_introl eq_refl)) as [E | Hin']; [auto |].
      exfalso. apply (String_as_OT.lt_not_eq a a); [| reflexivity].
      exact (String_as_OT.lt_trans _ _ _ (Ha b Hin') (Hb a Hin)). }
    subst b. f_equal. apply IH; [exact H1' | exact H2' |].
    intros k. split; intros Hk.
    + destruct (proj1 (Heq k) (or_intror Hk)) as [E | Hin]; [| exact Hin].
      subst k. exfalso. exact (String_as_OT.lt_not_eq _ _ (Ha a Hk) eq_refl).
    + destruct (proj2 (Heq k) (or_intror Hk)) as [E | Hin]; [| exact Hin].
      subst k. exfalso. exact (String_as_OT.lt_not_eq _ _ (Hb a Hk) eq_refl).
Qed.

(** C3, as amended.  [groupby] forms one group per label and hands the
    groups over in ascending label order, whatever the order of the rows;
    the result is the first 15 entries of what [sort_values] makes of that
    series, a permutation of it in descending order of value.  Nothing
    more is known of the order among equal values. *)
Theorem agregar_groups_in_label_order (df_f : DataFrame) (cat col : string)
  (m : modo) (tmp : list (string * option Q)) :
  tmp_rows str_of df_f cat col = Ok tmp ->
  exists grouped grp,
    agregar F str_of sort_values_desc df_f cat col m = Ok grp /\
    grouped = map (fun g => (fst g, reduce F m (snd g))) (groupby tmp) /\
    StronglySorted String_as_OT.lt (map fst grouped) /\
    (forall k, In k (map fst grouped) <-> In k (map fst tmp)) /\
    (forall tmp', Permutation tmp tmp' ->
                  map fst (groupby tmp') = map fst grouped) /\
    grp = firstn 15 (sort_values_desc grouped) /\
    Permutation (sort_values_desc grouped) grouped /\
    StronglySorted desc_nanlast (sort_values_desc grouped).
Proof.
  intros Htmp. unfold agregar. rewrite Htmp. cbv beta iota delta [rbind].
  set (red := map (fun g => (fst g, reduce F m (snd g))) (groupby tmp)).
  assert (Hk : map fst red = keys (groupby tmp)).
  { unfold red.
    fold (keys (map (fun g => (fst g, reduce F m (snd g))) (groupby tmp))).
    apply keys_reduce. }
  exists red, (firstn top_n (sort_values_desc red)).
  split; [reflexivity |]. split; [reflexivity |].
  split; [rewrite Hk; apply groupby_keys_sorted |].
  split; [intros k; rewrite Hk; apply groupby_keys_In |].
  split; [| split; [reflexivity | split; [apply sort_perm |]]].
  - intros tmp' Hperm. rewrite Hk. apply sorted_labels_unique.
    + apply groupby_keys_sorted.
    + apply groupby_keys_sorted.
    + intros k. fold (keys (groupby tmp')). rewrite !groupby_keys_In.
      split; apply Permutation_in; apply Permutation_map;
        [symmetry; exact Hperm | exact Hperm].
  - apply Sorted_StronglySorted; [exact desc_nanlast_trans | apply sort_sorted].
Qed.

End AggregateFacts.

(** ** The properties at concrete inputs *)

Section ConcreteCases.

Import Loader Profiler Engine Nociones Ejemplos Casos.
Local Open Scope Q_scope.

(** The three strategies, on a datastore resource, a CSV resource and a
    PDF resource. *)
Lemma cargar_recurso_strategy_witness :
  (truthy_bool (datastore_active recurso_datastore) = true /\
   cargar_recurso store csv upper cabe recurso_datastore 2
   = ([DatastoreSearch "r1" 2],
      rmap (fun recs => Some (DataFrame_of_records cabe recs)) (store "r1" 2)))
  /\
  (truthy_bool (datastore_active recurso_csv) = false /\
   upper (or_empty (format recurso_csv)) = "CSV" /\
   cargar_recurso store csv upper cabe recurso_csv 2
   = ([ReadCsv "https://datos.gob.cl/r2.csv"],
      rmap Some (csv "https://datos.gob.cl/r2.csv")))
  /\
  (truthy_bool (datastore_active recurso_pdf) = false /\
   upper (or_empty (format recurso_pdf)) <> "CSV" /\
   cargar_recurso store csv upper cabe recurso_pdf 2 = ([], Ok None)).
Proof.
  split; [| split].
  - split; [reflexivity |].
    apply (proj1 (cargar_recurso_strategy store csv upper cabe
                    recurso_datastore 2)).
    reflexivity.
  - split; [reflexivity |]. split; [reflexivity |].
    apply (proj1 (proj2 (cargar_recurso_strategy store csv upper cabe
                    recurso_csv 2)));
      [reflexivity | reflexivity | reflexivity | discriminate].
  - split; [reflexivity |]. split; [discriminate |].
    apply (proj2 (proj2 (cargar_recurso_strategy store csv upper cabe
                    recurso_pdf 2)));
      [reflexivity | left; discriminate].
Defined.

(** With limit 2 the store path yields two rows and the CSV path the
    three rows of the file. *)
Lemma row_cap_only_on_datastore_witness :
  (truthy_bool (datastore_active recurso_datastore) = true /\
   (forall recs, store (id recurso_datastore) 2 = Ok recs ->
                 (Z.of_nat (List.length recs) <= 2)%Z) /\
   (Z.of_nat (nrows (DataFrame_of_records cabe (firstn 2 registros_egresos)))
    <= 2)%Z)
  /\
  (truthy_bool (datastore_active recurso_csv) = false /\
   nrows tabla_csv = 3%nat /\
   forall limit',
     cargar_recurso store csv upper cabe recurso_csv limit'
     = ([ReadCsv "https://datos.gob.cl/r2.csv"], Ok (Some tabla_csv))).
Proof.
  assert (Hcap : forall recs, store (id recurso_datastore) 2 = Ok recs ->
                              (Z.of_nat (List.length recs) <= 2)%Z).
  { intros recs H. injection H as <-. simpl. lia. }
  split.
  - split; [reflexivity |]. split; [exact Hcap |].
    apply (proj1 (row_cap_only_on_datastore store csv upper cabe
                    recurso_datastore 2)
                 eq_refl Hcap).
    reflexivity.
  - split; [reflexivity |]. split; [reflexivity |].
    apply (proj2 (row_cap_only_on_datastore store csv upper cabe recurso_csv 2)
                 eq_refl tabla_csv).
    reflexivity.
Defined.

(** The column [notas] holds a nested list: its [nunique] raises and the
    column is skipped. *)
Lemma low_cardinality_cols_never_raises_witness :
  nunique (ObjCol [Unhashable "[1]"; Null; Null; Null]) = Raise TypeError /\
  exists cols,
    low_cardinality_cols tabla_servicios max_unique_default = Ok cols /\
    ~ In "notas" cols.
Proof.
  split; [reflexivity |].
  destruct (low_cardinality_cols_never_raises tabla_servicios)
    as (cols & Hok & _ & Hskip).
  exists cols. split; [exact Hok |].
  apply (Hskip "notas" (ObjCol [Unhashable "[1]"; Null; Null; Null]) TypeError);
    reflexivity.
Defined.

(** [egresos] has two distinct values and is still not offered. *)
Lemma cat_candidates_exclude_indicator_witness :
  low_cardinality_cols tabla_servicios max_unique_default
    = Ok ["servicio"; "egresos"] /\
  exists cands,
    cat_candidates tabla_servicios "egresos" = Ok cands /\
    ~ In "egresos" cands.
Proof.
  split; [reflexivity |].
  destruct (cat_candidates_exclude_indicator tabla_servicios "egresos")
    as (low & cands & _ & Hc & Hnot & _).
  exists cands. split; [exact Hc | exact Hnot].
Defined.

(** Filtering [[10; 20; 30]] between its minimum and maximum. *)
Lemma range_filter_inclusive_witness :
  getitem (columns tabla_csv) "egresos"
    = Ok (NumCol [Some 10; Some 20; Some 30]) /\
  exists df_f vals_f,
    filtrar tabla_csv "egresos" 10 30 = Ok df_f /\
    getitem (columns df_f) "egresos" = Ok (NumCol vals_f) /\
    dropna vals_f = [10; 20; 30].
Proof.
  split; [reflexivity |].
  destruct (range_filter_inclusive tabla_csv "egresos"
              [Some 10; Some 20; Some 30] 10 30 eq_refl)
    as (df_f & vals_f & Hf & Hg & _ & _ & Hid).
  exists df_f, vals_f. split; [exact Hf |]. split; [exact Hg |].
  apply Hid; reflexivity.
Defined.

(** Sums per hospital of the CSV table, with the insertion sort. *)
Lemma agregar_top15_witness :
  (forall l, Permutation (stable_sort_desc l) l) /\
  (forall l, Sorted desc_nanlast (stable_sort_desc l)) /\
  tmp_rows print_cell tabla_csv "hospital" "egresos"
    = Ok [("A", Some 10); ("B", Some 20); ("A", Some 30)] /\
  exists grp,
    agregar Stats.exact print_cell stable_sort_desc
            tabla_csv "hospital" "egresos" Suma
      = Ok grp /\
    List.length grp = 2%nat /\
    StronglySorted desc_nanlast grp /\
    NoDup (map fst grp).
Proof.
  split; [exact stable_sort_desc_perm |].
  split; [exact stable_sort_desc_sorted |].
  split; [reflexivity |].
  destruct (agregar_top15 Stats.exact print_cell stable_sort_desc
              stable_sort_desc_perm stable_sort_desc_sorted
              tabla_csv "hospital" "egresos" Suma
              [("A", Some 10); ("B", Some 20); ("A", Some 30)] eq_refl)
    as (grp & Hg & Hlen & _ & Hs & _ & Hfew).
  exists grp. split; [exact Hg |]. split; [exact Hlen |].
  split; [exact Hs |].
  apply Hfew. vm_compute. lia.
Defined.

(** The groups of [tabla_ba] are handed over as [a, b]. *)
Lemma agregar_groups_in_label_order_witness :
  (forall l, Permutation (stable_sort_desc l) l) /\
  (forall l, Sorted desc_nanlast (stable_sort_desc l)) /\
  tmp_rows print_cell tabla_ba "servicio" "egresos"
    = Ok [("b", Some 1); ("a", Some 1)] /\
  exists grouped grp,
    agregar Stats.exact print_cell stable_sort_desc
            tabla_ba "servicio" "egresos" Suma = Ok grp /\
    map fst grouped = ["a"; "b"] /\
    grp = firstn 15 (stable_sort_desc grouped).
Proof.
  split; [exact stable_sort_desc_perm |].
  split; [exact stable_sort_desc_sorted |].
  split; [reflexivity |].
  destruct (agregar_groups_in_label_order Stats.exact print_cell
              stable_sort_desc stable_sort_desc_perm stable_sort_desc_sorted
              tabla_ba "servicio" "egresos" Suma
              [("b", Some 1); ("a", Some 1)] eq_refl)
    as (grouped & grp & Hg & Heq & _ & _ & _ & Hgrp & _).
  exists grouped, grp. split; [exact Hg |]. split; [| exact Hgrp].
  rewrite Heq. reflexivity.
Defined.

(** The two series of the specification, with the arithmetic that does
    not round: their means and medians are whole numbers. *)
Lemma asim_by_mean_and_median_witness :
  [1; 2; 3; 4; 100] <> [] /\
  Stats.np_mean Stats.exact [1; 2; 3; 4; 100] == 22 /\
  Stats.np_median Stats.exact [1; 2; 3; 4; 100] == 3 /\
  asim Stats.exact [1; 2; 3; 4; 100] = Positiva /\
  exists m md,
    Stats.mean Stats.exact [1; 2; 3; 4; 100] = Some m /\
    Stats.median Stats.exact [1; 2; 3; 4; 100] = Some md /\
    (asim Stats.exact [1; 2; 3; 4; 100] = Positiva <-> md < m).
Proof.
  assert (Hne : [1; 2; 3; 4; 100] <> []) by discriminate.
  assert (Hm : Stats.np_mean Stats.exact [1; 2; 3; 4; 100] == 22)
    by reflexivity.
  assert (Hmd : Stats.np_median Stats.exact [1; 2; 3; 4; 100] == 3)
    by reflexivity.
  split; [exact Hne |]. split; [exact Hm |]. split; [exact Hmd |].
  split.
  - exact (proj1 (proj2 (asim_by_mean_and_median Stats.exact)) Hm Hmd).
  - destruct (proj1 (asim_by_mean_and_median Stats.exact)
                    [1; 2; 3; 4; 100] Hne)
      as (m & md & H1 & H2 & Hpos & _).
    exists m, md. split; [exact H1 |]. split; [exact H2 | exact Hpos].
Defined.

(** On [tabla_ba] pandas groups the rows as [a, b]; a stable sort keeps
    that order although [b] occurs first in the table. *)
Example agregar_tabla_ba :
  agregar Stats.exact print_cell stable_sort_desc
          tabla_ba "servicio" "egresos" Suma
  = Ok [("a", Some 1); ("b", Some 1)].
Proof. reflexivity. Qed.

(** C3, as stated, does not hold.  [tabla_ba] and [tabla_ab] hold the same
    two rows, with equal sums, in opposite order; after [groupby] both are
    the series [a, b], so whatever [sort_values] does with the tie, the
    answer is the same for both tables, and it is against first-occurrence
    order for one of them. *)
Lemma ties_not_by_first_occurrence :
  ~ exists sort_values_desc,
      (forall l, Permutation (sort_values_desc l) l) /\
      ties_by_first_occurrence Stats.exact print_cell sort_values_desc
        tabla_ba "servicio" "egresos" Suma /\
      ties_by_first_occurrence Stats.exact print_cell sort_values_desc
        tabla_ab "servicio" "egresos" Suma.
Proof.
  intros (srt & Hperm & Hba & Hab).
  specialize (Hba _ _ eq_refl eq_refl). specialize (Hab _ _ eq_refl eq_refl).
  vm_compute groupby in Hba, Hab.
  cbv [map fst snd reduce dropna Stats.sum Stats.np_sum Stats.exact
       Stats.exact_sum fold_left] in Hba, Hab.
  set (l := srt _) in Hba, Hab.
  assert (Hl : Permutation [("a"%string, Some (0 + 1));
                            ("b"%string, Some (0 + 1))] l).
  { symmetry. apply Hperm. }
  apply Permutation_length_2_inv in Hl.
  destruct Hl as [Hl | Hl]; rewrite Hl in *.
  - specialize (Hba 0%nat 1%nat _ _ (Nat.lt_0_1) eq_refl eq_refl eq_refl).
    vm_compute in Hba. lia.
  - specialize (Hab 0%nat 1%nat _ _ (Nat.lt_0_1) eq_refl eq_refl eq_refl).
    vm_compute in Hab. lia.
Qed.

End ConcreteCases.

(** * Further properties of the script *)

(** ** The analysis run as a whole *)

Section AnalysisRun.

Import Profiler Engine Nociones.
Local Open Scope Q_scope.

Variable F : Stats.arith.

Variable floatify : string -> option Q.
Variable str_of : cell -> string.
Variable sort_values_desc :
  list (string * option Q) -> list (string * option Q).

Lemma Ok_inj {A} (a b : A) : Ok a = Ok b -> a = b.
Proof. intros H. congruence. Qed.

Lemma selectbox_In (opts : list string) (choice : nat) :
  opts <> [] -> In (selectbox opts choice) opts.
Proof.
  intros Hne. unfold selectbox.
  destruct (Nat.lt_ge_cases choice (List.length opts)) as [Hlt | Hge].
  - apply nth_In. exact Hlt.
  - rewrite nth_overflow by exact Hge.
    destruct opts; [contradiction | left; reflexivity].
Qed.

Lemma In_getitem cols c :
  In c (map fst cols) -> exists s, getitem cols c = Ok s.
Proof.
  induction cols as [| [n x] cols IH]; simpl; [intros [] |].
  destruct (String.eqb_spec n c) as [-> | Hne].
  - intros _. eexists. reflexivity.
  - intros [H | H]; [contradiction | auto].
Qed.

Lemma numeric_cols_incl df c :
  In c (numeric_cols df) -> In c (df_columns df).
Proof.
  unfold numeric_cols, df_columns. intros H.
  apply in_map_iff in H. destruct H as (x & <- & Hx).
  apply in_map. apply filter_In in Hx. tauto.
Qed.

Lemma to_numeric_is_numeric c :
  exists vals, to_numeric floatify c = NumCol vals.
Proof. destruct c; eexists; reflexivity. Qed.

Lemma select_range_mask (vals : list (option Q)) (lo hi : Q) :
  select (range_mask vals lo hi) vals
  = map Some (dropna (select (range_mask vals lo hi) vals))
  /\ List.length (select (range_mask vals lo hi) vals)
     = List.length (filter (fun b => b) (range_mask vals lo hi)).
Proof.
  unfold range_mask.
  induction vals as [| [q |] vals [IH1 IH2]]; simpl; [auto | | auto].
  destruct (Qle_bool lo q && Qle_bool q hi); simpl; [| auto].
  split; [f_equal; exact IH1 | f_equal; exact IH2].
Qed.

Lemma is_candidate_getitem df m c :
  is_candidate df m c -> exists s, getitem (columns df) c = Ok s.
Proof. intros (s & n & Hs & _). eauto. Qed.

(** The chart block always comes to an end on a table whose indicator is
    numeric. *)
Lemma top_por_categoria_ok df_f col ui vals :
  getitem (columns df_f) col = Ok (NumCol vals) ->
  exists cands top,
    cat_candidates df_f col = Ok cands /\
    top_por_categoria F str_of sort_values_desc df_f col ui = Ok top /\
    match top with
    | None => cands = []
    | Some (cat, grp) =>
        In cat cands /\
        agregar F str_of sort_values_desc df_f cat col (pick_modo ui) = Ok grp
    end.
Proof.
  intros Hcol.
  destruct (low_cardinality_cols_ok df_f max_unique_default)
    as (low & Hlow & Hin).
  unfold top_por_categoria, cat_candidates. rewrite Hlow.
  cbv beta iota delta [rbind].
  set (cands := filter (fun c => negb (String.eqb c col)) low).
  exists cands. destruct cands as [| c0 cands'] eqn:Ec.
  - exists None. auto.
  - set (cat := selectbox (c0 :: cands') (pick_cat ui)).
    assert (Hcat : In cat (c0 :: cands')).
    { apply selectbox_In. discriminate. }
    assert (Hlowc : In cat low).
    { rewrite <- Ec in Hcat. unfold cands in Hcat.
      apply filter_In in Hcat. tauto. }
    apply Hin in Hlowc. destruct (is_candidate_getitem _ _ _ Hlowc) as (s & Hs).
    assert (Hagr : exists grp,
               agregar F str_of sort_values_desc df_f cat col (pick_modo ui)
               = Ok grp).
    { unfold agregar, tmp_rows. rewrite Hs, Hcol.
      cbv beta iota delta [rbind floats]. eexists. reflexivity. }
    destruct Hagr as (grp & Hagr). rewrite Hagr.
    exists (Some (cat, grp)). split; [reflexivity |].
    split; [reflexivity |]. split; [exact Hcat | exact Hagr].
Qed.

(** Every run of the analysis, told apart by where it ends. *)
Lemma analizar_cases (df : DataFrame) (ui : widgets) :
  (numeric_cols df = [] /\
   analizar F floatify str_of sort_values_desc df ui
     = Stopped SinColumnasNumericas)
  \/
  exists col c vals,
    In col (numeric_cols df) /\
    col = selectbox (numeric_cols df) (pick_col ui) /\
    getitem (columns df) col = Ok c /\
    to_numeric floatify c = NumCol vals /\
    ((dropna vals = [] /\
      analizar F floatify str_of sort_values_desc df ui
        = Stopped SinValoresNumericos)
     \/
     exists minv maxv,
       Stats.min (dropna vals) = Some minv /\
       Stats.max (dropna vals) = Some maxv /\
       ((minv == maxv /\
         analizar F floatify str_of sort_values_desc df ui
           = Uncaught StreamlitAPIException)
        \/
        (~ minv == maxv /\
         exists cands top,
           let rango := chosen_range minv maxv ui in
           let mask := range_mask vals (fst rango) (snd rango) in
           let tabla := boolean_index (setitem df col (NumCol vals)) mask in
           let s := dropna (select mask vals) in
           cat_candidates tabla col = Ok cands /\
           match top with
           | None => cands = []
           | Some (cat, grp) =>
               In cat cands /\
               agregar F str_of sort_values_desc tabla cat col (pick_modo ui)
                 = Ok grp
           end /\
           analizar F floatify str_of sort_values_desc df ui
             = Rendered
                 (mkReport col tabla s (calcular_kpis F s) top (asim F s))))).
Proof.
  unfold analizar.
  destruct (numeric_cols df) as [| n0 num] eqn:En; [left; auto |].
  right.
  set (col := selectbox (n0 :: num) (pick_col ui)).
  assert (Hcol : In col (n0 :: num)) by (apply selectbox_In; discriminate).
  assert (Hc : exists c, getitem (columns df) col = Ok c).
  { apply In_getitem. apply numeric_cols_incl. rewrite En. exact Hcol. }
  destruct Hc as (c & Hc).
  destruct (to_numeric_is_numeric c) as (vals & Hvals).
  exists col, c, vals. split; [exact Hcol |]. split; [reflexivity |].
  split; [exact Hc |]. split; [exact Hvals |].
  rewrite Hc. cbv beta iota delta [rbind].
  rewrite (getitem_setitem _ _ _ (to_numeric floatify c) Hc), Hvals.
  cbv beta iota delta [floats].
  destruct (dropna vals) as [| x serie] eqn:Es; [left; auto |].
  right. unfold analizar_serie.
  destruct (Stats.min (x :: serie)) as [minv |] eqn:Emin;
    [| discriminate Emin].
  destruct (Stats.max (x :: serie)) as [maxv |] eqn:Emax;
    [| discriminate Emax].
  exists minv, maxv. split; [reflexivity |]. split; [reflexivity |].
  unfold slider. destruct (Qeq_bool minv maxv) eqn:Eq.
  { left. split; [apply Qeq_bool_iff; exact Eq | reflexivity]. }
  right. split.
  { intros Heq. apply Qeq_bool_iff in Heq. congruence. }
  assert (Hr : match pick_rango ui with
               | Some r => Ok r
               | None => Ok (minv, maxv)
               end = Ok (chosen_range minv maxv ui)).
  { unfold chosen_range. destruct (pick_rango ui); reflexivity. }
  rewrite Hr. cbv beta iota delta [rbind].
  set (rango := chosen_range minv maxv ui).
  set (df' := setitem df col (NumCol vals)).
  assert (Hc' : getitem (columns df') col = Ok (NumCol vals)).
  { apply (getitem_setitem _ _ _ (NumCol vals) Hc). }
  unfold filtrar. rewrite Hc'. cbv beta iota delta [rbind floats].
  set (mask := range_mask vals (fst rango) (snd rango)).
  assert (Hf : getitem (columns (boolean_index df' mask)) col
               = Ok (NumCol (select mask vals))).
  { rewrite getitem_boolean_index, Hc'. reflexivity. }
  rewrite Hf.
  destruct (top_por_categoria_ok (boolean_index df' mask) col ui _ Hf)
    as (cands & top & Hcands & Htop & Hshape).
  rewrite Htop.
  exists cands, top.
  split; [exact Hcands |]. split; [exact Hshape | reflexivity].
Qed.

Lemma fold_qmin_In (l : list Q) :
  forall x, In (fold_left Stats.qmin l x) (x :: l).
Proof.
  induction l as [| y l IH]; intros x; simpl; [left; reflexivity |].
  destruct (IH (Stats.qmin x y)) as [H | H].
  - rewrite <- H. unfold Stats.qmin. destruct (Qle_bool x y); auto.
  - right. right. exact H.
Qed.

Lemma fold_qmax_In (l : list Q) :
  forall x, In (fold_left Stats.qmax l x) (x :: l).
Proof.
  induction l as [| y l IH]; intros x; simpl; [left; reflexivity |].
  destruct (IH (Stats.qmax x y)) as [H | H].
  - rewrite <- H. unfold Stats.qmax. destruct (Qle_bool x y); auto.
  - right. right. exact H.
Qed.

Lemma min_max_In (s : list Q) (minv maxv : Q) :
  Stats.min s = Some minv -> Stats.max s = Some maxv ->
  In minv s /\ In maxv s.
Proof.
  destruct s as [| x l]; [discriminate |]. simpl. intros H1 H2.
  injection H1 as <-. injection H2 as <-.
  split; [apply fold_qmin_In | apply fold_qmax_In].
Qed.

(** X1. The analysis ends in one of the two warnings, in the rendered
    report, or in the [StreamlitAPIException] of the range slider, and in
    nothing else; the slider raises exactly when the chosen column has
    valid numbers and they are all equal (a table of one row, a constant
    indicator). *)
Theorem analizar_only_slider_raises (df : DataFrame) (ui : widgets) :
  ((exists w, analizar F floatify str_of sort_values_desc df ui = Stopped w)
   \/ (exists r,
         analizar F floatify str_of sort_values_desc df ui = Rendered r)
   \/ analizar F floatify str_of sort_values_desc df ui
      = Uncaught StreamlitAPIException)
  /\
  (numeric_cols df <> [] ->
   forall c serie,
     getitem (columns df) (selectbox (numeric_cols df) (pick_col ui)) = Ok c ->
     preparar floatify c = Ok serie ->
     (analizar F floatify str_of sort_values_desc df ui
        = Uncaught StreamlitAPIException
      <-> serie <> [] /\ exists v, forall x, In x serie -> x == v)).
Proof.
  destruct (analizar_cases df ui)
    as [[Hnum H] | (col & c & vals & _ & Hsel & Hc & Hvals &
                    [[Hs H] | (minv & maxv & Hmin & Hmax &
                               [[Heq H] | (Hneq & cands & top & _ & _ & H)])])].
  - split; [left; eauto |]. intros Hne. contradiction.
  - split; [left; eauto |]. intros _ c' serie Hc' Hp.
    rewrite <- Hsel, Hc in Hc'. apply Ok_inj in Hc'. subst c'.
    unfold preparar in Hp. rewrite Hvals in Hp.
    cbv beta iota delta [rbind floats] in Hp. apply Ok_inj in Hp.
    rewrite H. split; [discriminate |].
    intros [Hne _]. exfalso. apply Hne. rewrite <- Hp. exact Hs.
  - split; [right; right; exact H |]. intros _ c' serie Hc' Hp.
    rewrite <- Hsel, Hc in Hc'. apply Ok_inj in Hc'. subst c'.
    unfold preparar in Hp. rewrite Hvals in Hp.
    cbv beta iota delta [rbind floats] in Hp. apply Ok_inj in Hp.
    subst serie. split; [intros _ | intros _; exact H].
    split; [intros Hnil; rewrite Hnil in Hmin; discriminate Hmin |].
    exists minv. intros x Hx.
    destruct (min_max_bound _ _ _ Hmin Hmax x Hx) as [H1 H2].
    apply Qle_antisym; [rewrite Heq; exact H2 | exact H1].
  - split; [right; left; eauto |]. intros _ c' serie Hc' Hp.
    rewrite <- Hsel, Hc in Hc'. apply Ok_inj in Hc'. subst c'.
    unfold preparar in Hp. rewrite Hvals in Hp.
    cbv beta iota delta [rbind floats] in Hp. apply Ok_inj in Hp.
    subst serie. rewrite H. split; [discriminate |].
    intros [_ (v & Hv)]. exfalso. apply Hneq.
    destruct (min_max_In _ _ _ Hmin Hmax) as [Hi Ha].
    rewrite (Hv _ Hi), (Hv _ Ha). reflexivity.
Qed.

(** X2. In a rendered report the indicator column of the filtered table is
    the filtered series itself, without a missing entry, and the tile
    "Registros" counts the rows of that table. *)
Theorem report_series_is_table_column (df : DataFrame) (ui : widgets) r :
  analizar F floatify str_of sort_values_desc df ui = Rendered r ->
  getitem (columns (df_f r)) (indicador r)
    = Ok (NumCol (map Some (s_filtrada r))) /\
  registros (tiles r) = nrows (df_f r) /\
  List.length (s_filtrada r) = nrows (df_f r).
Proof.
  intros Hr.
  destruct (analizar_cases df ui)
    as [[_ H] | (col & c & vals & _ & _ & Hc & _ &
                 [[_ H] | (minv & maxv & _ & _ &
                           [[_ H] | (_ & cands & top & _ & _ & H)])])];
    try (rewrite H in Hr; discriminate Hr).
  rewrite H in Hr. injection Hr as <-.
  cbv beta iota delta [df_f indicador s_filtrada tiles registros calcular_kpis].
  set (rango := chosen_range minv maxv ui).
  destruct (select_range_mask vals (fst rango) (snd rango)) as [H1 H2].
  assert (Hlen : List.length
                   (dropna (select (range_mask vals (fst rango) (snd rango))
                                   vals))
                 = List.length
                     (filter (fun b => b)
                             (range_mask vals (fst rango) (snd rango)))).
  { rewrite <- H2. rewrite H1 at 2. rewrite length_map. reflexivity. }
  split; [| split; exact Hlen].
  rewrite getitem_boolean_index.
  rewrite (getitem_setitem _ _ _ (NumCol vals) Hc).
  cbv beta iota delta [rmap rbind select_column].
  rewrite <- H1. reflexivity.
Qed.

(** X3. The chart is drawn exactly when the filtered table has a
    low-cardinality column besides the indicator; the column it groups by
    is one of those, never the indicator, and it shows at most 15 bars. *)
Theorem report_top15_shape (df : DataFrame) (ui : widgets) r :
  analizar F floatify str_of sort_values_desc df ui = Rendered r ->
  exists cands,
    cat_candidates (df_f r) (indicador r) = Ok cands /\
    match top15 r with
    | None => cands = []
    | Some (cat, grp) =>
        In cat cands /\ cat <> indicador r /\
        is_candidate (df_f r) max_unique_default cat /\
        (List.length grp <= 15)%nat
    end.
Proof.
  intros Hr.
  destruct (analizar_cases df ui)
    as [[_ H] | (col & c & vals & _ & _ & Hc & _ &
                 [[_ H] | (minv & maxv & _ & _ &
                           [[_ H] | (_ & cands & top & Hcands & Htop & H)])])];
    try (rewrite H in Hr; discriminate Hr).
  rewrite H in Hr. injection Hr as <-.
  cbv beta iota delta [df_f indicador top15].
  exists cands. split; [exact Hcands |].
  destruct top as [[cat grp] |]; [| exact Htop].
  destruct Htop as [Hin Hagr]. split; [exact Hin |].
  set (tabla := boolean_index _ _) in *.
  destruct (low_cardinality_cols_ok tabla max_unique_default)
    as (low & Hlow & Hlowin).
  unfold cat_candidates in Hcands. rewrite Hlow in Hcands.
  simpl in Hcands. injection Hcands as <-.
  apply filter_In in Hin. destruct Hin as [Hin Hne].
  split; [| split].
  - intros ->. rewrite String.eqb_refl in Hne. discriminate Hne.
  - apply Hlowin. exact Hin.
  - unfold agregar in Hagr.
    destruct (tmp_rows str_of tabla cat col) as [tmp | e];
      [| discriminate Hagr].
    cbv beta iota delta [rbind] in Hagr. apply Ok_inj in Hagr.
    rewrite <- Hagr, length_firstn. apply Nat.le_min_l.
Qed.

End AnalysisRun.

(** ** The range filter on the whole table *)

Section TableFilter.

Import Profiler Engine Nociones.
Local Open Scope Q_scope.

Lemma range_mask_inverted (vals : list (option Q)) (lo hi : Q) :
  hi < lo -> filter (fun b => b) (range_mask vals lo hi) = [].
Proof.
  intros Hlt. unfold range_mask.
  induction vals as [| [q |] vals IH]; simpl; [reflexivity | | exact IH].
  destruct (Qle_bool lo q) eqn:E1, (Qle_bool q hi) eqn:E2; simpl; try exact IH.
  apply Qle_bool_iff in E1. apply Qle_bool_iff in E2.
  exfalso. apply (Qlt_not_le _ _ Hlt). exact (Qle_trans _ _ _ E1 E2).
Qed.

Lemma select_no_true {A} (mask : list bool) :
  filter (fun b => b) mask = [] -> forall l : list A, select mask l = [].
Proof.
  induction mask as [| [] mask IH]; simpl; intros H l.
  - reflexivity.
  - discriminate H.
  - destruct l; [reflexivity | apply IH; exact H].
Qed.

(** X4. Bounds given the wrong way round ([hi < lo]) are no error: the
    filtered table has no row and the filtered series is empty. *)
Theorem filtrar_inverted_range
  (df : DataFrame) (col : string) (vals : list (option Q)) (lo hi : Q) :
  getitem (columns df) col = Ok (NumCol vals) ->
  hi < lo ->
  exists df_f,
    filtrar df col lo hi = Ok df_f /\
    nrows df_f = 0%nat /\
    getitem (columns df_f) col = Ok (NumCol []).
Proof.
  intros Hcol Hlt.
  exists (boolean_index df (range_mask vals lo hi)).
  pose proof (range_mask_inverted vals lo hi Hlt) as Hmask.
  split; [unfold filtrar; rewrite Hcol; reflexivity |]. split.
  - unfold boolean_index. cbn [nrows]. rewrite Hmask. reflexivity.
  - rewrite getitem_boolean_index, Hcol.
    cbv beta iota delta [rmap rbind select_column].
    rewrite (select_no_true _ Hmask). reflexivity.
Qed.

Lemma length_select {A} (mask : list bool) :
  forall l : list A,
    List.length l = List.length mask ->
    List.length (select mask l) = List.length (filter (fun b => b) mask).
Proof.
  induction mask as [| b mask IH]; intros [| x l]; simpl; intros H;
    try discriminate H; [reflexivity |].
  injection H as H. destruct b; simpl; rewrite (IH l H); reflexivity.
Qed.

Lemma select_map {A B} (f : A -> B) (mask : list bool) :
  forall l : list A, select mask (map f l) = map f (select mask l).
Proof.
  induction mask as [| b mask IH]; intros [| x l]; simpl; try reflexivity.
  - destruct b; reflexivity.
  - destruct b; simpl; rewrite IH; reflexivity.
Qed.

Lemma cells_select_column mask c :
  cells (select_column mask c) = select mask (cells c).
Proof.
  destruct c as [l | l]; simpl; [| reflexivity].
  symmetry. apply select_map.
Qed.

Lemma length_filter_le {A} (p : A -> bool) (l : list A) :
  (List.length (filter p l) <= List.length l)%nat.
Proof.
  induction l as [| x l IH]; simpl; [lia |].
  destruct (p x); simpl; lia.
Qed.

Lemma getitem_In_pair cols c s :
  getitem cols c = Ok s -> In (c, s) cols.
Proof.
  induction cols as [| [n x] cols IH]; simpl; [discriminate |].
  destruct (String.eqb_spec n c) as [-> | Hne].
  - intros H. injection H as ->. left. reflexivity.
  - intros H. right. exact (IH H).
Qed.

Lemma numeric_names_select mask (cols : list (string * column)) :
  map fst (filter (fun nc => is_numcol (snd nc))
                  (map (fun nc => (fst nc, select_column mask (snd nc))) cols))
  = map fst (filter (fun nc => is_numcol (snd nc)) cols).
Proof.
  induction cols as [| [n c] cols IH]; [reflexivity |].
  cbn [map filter fst snd].
  destruct c; cbn [select_column is_numcol map fst]; rewrite IH; reflexivity.
Qed.

Lemma boolean_index_well_formed (df : DataFrame) (mask : list bool) :
  well_formed df ->
  List.length mask = nrows df ->
  well_formed (boolean_index df mask).
Proof.
  intros Hwf Hlen n c Hin. unfold boolean_index in Hin. cbn [columns] in Hin.
  apply in_map_iff in Hin. destruct Hin as ([n' c'] & Heq & Hin).
  cbn [fst snd] in Heq. injection Heq as <- <-.
  rewrite cells_select_column. unfold boolean_index. cbn [nrows].
  apply length_select. rewrite Hlen. exact (Hwf n' c' Hin).
Qed.

(** X5. Filtering keeps the shape of a well-formed table: the same columns
    in the same order, with the same dtypes, every column cut to the same
    rows, and never more rows than before. *)
Theorem filtrar_keeps_shape
  (df df_f : DataFrame) (col : string) (lo hi : Q) :
  well_formed df ->
  filtrar df col lo hi = Ok df_f ->
  well_formed df_f /\
  df_columns df_f = df_columns df /\
  numeric_cols df_f = numeric_cols df /\
  (nrows df_f <= nrows df)%nat.
Proof.
  intros Hwf Hf. unfold filtrar in Hf.
  destruct (getitem (columns df) col) as [c |] eqn:Hc; [| discriminate Hf].
  destruct c as [vals | l]; [| discriminate Hf].
  cbv beta iota delta [rbind floats] in Hf. apply Ok_inj in Hf. subst df_f.
  set (mask := range_mask vals lo hi).
  assert (Hlen : List.length mask = nrows df).
  { unfold mask, range_mask. rewrite length_map.
    rewrite <- (Hwf col (NumCol vals) (getitem_In_pair _ _ _ Hc)).
    simpl. rewrite length_map. reflexivity. }
  split; [| split; [| split]].
  - apply boolean_index_well_formed; assumption.
  - unfold df_columns, boolean_index. cbn [columns].
    rewrite map_map. reflexivity.
  - unfold numeric_cols, boolean_index. cbn [columns].
    apply numeric_names_select.
  - unfold boolean_index. cbn [nrows]. rewrite <- Hlen.
    apply length_filter_le.
Qed.

End TableFilter.

(** ** The profiler, beyond membership *)

Section ProfilerOrder.

Import Profiler Engine Nociones.

Lemma low_cardinality_step_filter df m cols c :
  low_cardinality_step df m cols c
  = Ok (cols ++ filter (candidate_b df m) [c]).
Proof.
  unfold low_cardinality_step, candidate_b, try_except, rbind. simpl.
  destruct (getitem (columns df) c) as [s | e];
    [| rewrite app_nil_r; reflexivity].
  destruct (nunique s) as [n | e]; [| rewrite app_nil_r; reflexivity].
  match goal with
  | |- context [if ?b then _ else _] => destruct b
  end; [reflexivity | rewrite app_nil_r; reflexivity].
Qed.

Lemma for_columns_filter df m names :
  forall acc,
    for_columns df m names acc = Ok (acc ++ filter (candidate_b df m) names).
Proof.
  induction names as [| c names IH]; intros acc.
  - simpl. rewrite app_nil_r. reflexivity.
  - cbn [for_columns]. rewrite low_cardinality_step_filter.
    cbv beta iota delta [rbind]. rewrite IH, <- app_assoc.
    cbn [filter]. destruct (candidate_b df m c); reflexivity.
Qed.

(** X6. The candidates come out in column order: [low_cardinality_cols]
    is the list of column names with those failing the test (or raising in
    it) struck out, so no name is repeated unless the table repeats it. *)
Theorem low_cardinality_cols_in_column_order (df : DataFrame) (m : nat) :
  low_cardinality_cols df m = Ok (filter (candidate_b df m) (df_columns df))
  /\ (NoDup (df_columns df) ->
      NoDup (filter (candidate_b df m) (df_columns df))).
Proof.
  split.
  - unfold low_cardinality_cols. apply for_columns_filter.
  - apply NoDup_filter.
Qed.

Lemma add_unique_length seen x :
  (List.length (add_unique seen x) <= S (List.length seen))%nat.
Proof.
  unfold add_unique. destruct (existsb (cell_eqb x) seen); [lia |].
  rewrite length_app. simpl. lia.
Qed.

Lemma fold_add_unique_length l :
  forall seen,
    (List.length (fold_left add_unique l seen)
     <= List.length seen + List.length l)%nat.
Proof.
  induction l as [| x l IH]; intros seen; simpl; [lia |].
  specialize (IH (add_unique seen x)).
  pose proof (add_unique_length seen x). lia.
Qed.

Lemma nunique_le_length c n :
  nunique c = Ok n -> (n <= List.length (cells c))%nat.
Proof.
  unfold nunique, unique, rbind.
  destruct (existsb is_unhashable (cells c)); [discriminate |].
  intros H. apply Ok_inj in H. subst n.
  etransitivity; [apply length_filter_le |].
  apply (fold_add_unique_length (cells c) []).
Qed.

(** X7. A well-formed table with fewer than two rows has no categorical
    candidate at all, so after a filter that leaves one record or none the
    Top-15 chart is skipped. *)
Theorem no_candidates_below_two_rows (df : DataFrame) (col : string) :
  well_formed df ->
  (nrows df < 2)%nat ->
  low_cardinality_cols df max_unique_default = Ok [] /\
  cat_candidates df col = Ok [].
Proof.
  intros Hwf Hrows.
  assert (Hlow : low_cardinality_cols df max_unique_default = Ok []).
  { destruct (low_cardinality_cols_ok df max_unique_default)
      as (cols & Hok & Hin).
    rewrite Hok. f_equal. destruct cols as [| c cols]; [reflexivity |].
    exfalso. destruct (proj1 (Hin c) (or_introl eq_refl))
      as (s & n & Hs & Hn & Hge & _).
    apply nunique_le_length in Hn.
    rewrite (Hwf c s (getitem_In_pair _ _ _ Hs)) in Hn. lia. }
  split; [exact Hlow |].
  unfold cat_candidates. rewrite Hlow. reflexivity.
Qed.

End ProfilerOrder.

(** ** The coercion of line 200 on a selected column *)

Section CoercionNoop.

Import Profiler Engine Nociones.
Local Open Scope Q_scope.

Variable F : Stats.arith.

Variable str_of : cell -> string.
Variable sort_values_desc :
  list (string * option Q) -> list (string * option Q).

Lemma getitem_numeric (cols : list (string * column)) (col : string) :
  NoDup (map fst cols) ->
  In col (map fst (filter (fun nc => is_numcol (snd nc)) cols)) ->
  exists vals, getitem cols col = Ok (NumCol vals).
Proof.
  induction cols as [| [n c] cols IH]; cbn [map filter fst snd getitem];
    intros Hnd Hin; [destruct Hin |].
  inversion Hnd as [| ? ? Hnotin Hnd']; subst.
  assert (Hrest : In col (map fst (filter (fun nc => is_numcol (snd nc)) cols))
                  -> In col (map fst cols)).
  { intros H. apply in_map_iff in H. destruct H as (x & <- & Hx).
    apply in_map. apply filter_In in Hx. tauto. }
  destruct (String.eqb_spec n col) as [-> | Hne].
  - destruct c as [l | l]; [eexists; reflexivity |].
    cbn [is_numcol] in Hin. exfalso. apply Hnotin, Hrest, Hin.
  - apply IH; [exact Hnd' |].
    destruct (is_numcol c); [| exact Hin].
    destruct Hin as [H | H]; [contradiction | exact H].
Qed.

Lemma setitem_absent (cols : list (string * column)) col c :
  ~ In col (map fst cols) ->
  map (fun nc : string * column =>
         if String.eqb (fst nc) col then (fst nc, c) else nc) cols = cols.
Proof.
  induction cols as [| [n x] cols IH]; cbn [map fst]; intros H;
    [reflexivity |].
  destruct (String.eqb_spec n col) as [-> | Hne].
  - exfalso. apply H. left. reflexivity.
  - rewrite IH; [reflexivity |]. intros Hin. apply H. right. exact Hin.
Qed.

Lemma setitem_same (df : DataFrame) col c :
  NoDup (df_columns df) ->
  getitem (columns df) col = Ok c ->
  setitem df col c = df.
Proof.
  destruct df as [n cols]. unfold setitem, df_columns. cbn [nrows columns].
  intros Hnd Hc. f_equal.
  induction cols as [| [k x] cols IH]; [reflexivity |].
  cbn [map fst getitem] in *. inversion Hnd as [| ? ? Hnotin Hnd']; subst.
  destruct (String.eqb_spec k col) as [-> | Hne].
  - apply Ok_inj in Hc. subst x. f_equal. apply setitem_absent. exact Hnotin.
  - f_equal. apply IH; assumption.
Qed.

(** X8. With distinct column names the coercion "por si viene como texto"
    has nothing left to do: a column offered as indicator is numeric
    already, writing its coercion back leaves the table as it was, and the
    whole analysis is the same whatever the text-to-number grammar. *)
Theorem coercion_of_indicator_is_noop (df : DataFrame) (ui : widgets) :
  NoDup (df_columns df) ->
  (forall floatify col,
     In col (numeric_cols df) ->
     exists vals,
       getitem (columns df) col = Ok (NumCol vals) /\
       setitem df col (to_numeric floatify (NumCol vals)) = df)
  /\
  (forall floatify floatify',
     analizar F floatify str_of sort_values_desc df ui
     = analizar F floatify' str_of sort_values_desc df ui).
Proof.
  intros Hnd. split.
  - intros floatify col Hcol.
    destruct (getitem_numeric (columns df) col Hnd Hcol) as (vals & Hv).
    exists vals. split; [exact Hv |].
    apply setitem_same; assumption.
  - intros f f'. unfold analizar.
    destruct (numeric_cols df) as [| n0 num] eqn:En; [reflexivity |].
    set (col := selectbox (n0 :: num) (pick_col ui)).
    assert (Hcol : In col (numeric_cols df)).
    { rewrite En. apply selectbox_In. discriminate. }
    destruct (getitem_numeric (columns df) col Hnd Hcol) as (vals & Hv).
    rewrite Hv. reflexivity.
Qed.

Variable floatify : string -> option Q.



End CoercionNoop.

(** ** What each bar of the chart stands for *)

Section GroupValues.

Import Engine Nociones.
Local Open Scope Q_scope.

Variable F : Stats.arith.

Lemma values_of_app k rows rows' :
  values_of k (rows ++ rows') = values_of k rows ++ values_of k rows'.
Proof.
  unfold values_of. rewrite filter_app, map_app. reflexivity.
Qed.

Lemma values_of_absent k rows :
  ~ In k (map fst rows) -> values_of k rows = [].
Proof.
  unfold values_of. induction rows as [| [k0 v0] rows IH]; simpl; intros H;
    [reflexivity |].
  destruct (String.eqb_spec k0 k) as [-> | Hne].
  - exfalso. apply H. left. reflexivity.
  - apply IH. intros Hin. apply H. right. exact Hin.
Qed.

Lemma sorted_head_absent k0 (ks : list string) k :
  StronglySorted String_as_OT.lt (k0 :: ks) ->
  k = k0 \/ String_as_OT.lt k k0 -> ~ In k ks.
Proof.
  intros Hs Hk Hin. inversion Hs as [| ? ? _ Hall]; subst.
  rewrite Forall_forall in Hall. specialize (Hall k Hin).
  destruct Hk as [-> | Hlt].
  - exact (String_as_OT.lt_not_eq _ _ Hall eq_refl).
  - exact (String_as_OT.lt_not_eq _ _
             (String_as_OT.lt_trans _ _ _ Hlt Hall) eq_refl).
Qed.

(** Where an entry of the groups comes from after one more row. *)
Lemma add_row_In k v g k' vs' :
  StronglySorted String_as_OT.lt (keys g) ->
  In (k', vs') (add_row k v g) ->
  (k' = k /\
   ((exists vs, In (k, vs) g /\ vs' = vs ++ [v]) \/
    (~ In k (keys g) /\ vs' = [v])))
  \/ (k' <> k /\ In (k', vs') g).
Proof.
  induction g as [| [k0 vs0] g IH]; cbn [add_row keys map fst]; intros Hs Hin.
  - destruct Hin as [Hin | []]. injection Hin as <- <-.
    left. split; [reflexivity |]. right. split; [intros [] | reflexivity].
  - assert (Hs' : StronglySorted String_as_OT.lt (keys g))
      by (inversion Hs; assumption).
    assert (Hother : forall a b, In (a, b) g -> In a (keys g)).
    { intros a b Hab. apply (in_map fst) in Hab. exact Hab. }
    destruct (String.compare k k0) eqn:E.
    + apply String_as_OT.cmp_eq in E. subst k0.
      destruct Hin as [Hin | Hin].
      * injection Hin as <- <-. left. split; [reflexivity |].
        left. exists vs0. split; [left; reflexivity | reflexivity].
      * right. split; [| right; exact Hin].
        intros ->.
        exact (sorted_head_absent k (keys g) k Hs (or_introl eq_refl)
                 (Hother _ _ Hin)).
    + apply String_as_OT.cmp_lt in E.
      destruct Hin as [Hin | Hin].
      * injection Hin as <- <-. left. split; [reflexivity |].
        right. split; [| reflexivity].
        intros [Heq | Hin].
        -- subst k0. exact (String_as_OT.lt_not_eq _ _ E eq_refl).
        -- exact (sorted_head_absent k0 (keys g) k Hs (or_intror E) Hin).
      * right. split; [| exact Hin].
        intros ->. destruct Hin as [Hin | Hin].
        -- injection Hin as -> _.
           exact (String_as_OT.lt_not_eq _ _ E eq_refl).
        -- exact (sorted_head_absent k0 (keys g) k Hs (or_intror E)
                    (Hother _ _ Hin)).
    + assert (Hlt : String_as_OT.lt k0 k).
      { apply String_as_OT.cmp_lt. fold (String.compare k0 k).
        rewrite String.compare_antisym, E. reflexivity. }
      destruct Hin as [Hin | Hin].
      * injection Hin as <- <-. right. split; [| left; reflexivity].
        intros ->. exact (String_as_OT.lt_not_eq _ _ Hlt eq_refl).
      * destruct (IH Hs' Hin) as [[-> [(vs & Hvs & ->) | [Hno ->]]] | [Hne Hg]].
        -- left. split; [reflexivity |]. left. exists vs.
           split; [right; exact Hvs | reflexivity].
        -- left. split; [reflexivity |]. right. split; [| reflexivity].
           intros [Heq | Hk]; [| exact (Hno Hk)].
           subst k0. exact (String_as_OT.lt_not_eq _ _ Hlt eq_refl).
        -- right. split; [exact Hne | right; exact Hg].
Qed.

Lemma fold_add_row_values rows :
  forall g done,
    StronglySorted String_as_OT.lt (keys g) ->
    (forall k, In k (keys g) <-> In k (map fst done)) ->
    (forall k vs, In (k, vs) g -> vs = values_of k done) ->
    forall k vs,
      In (k, vs)
         (fold_left (fun groups r => add_row (fst r) (snd r) groups) rows g) ->
      vs = values_of k (done ++ rows).
Proof.
  induction rows as [| [k0 v0] rows IH]; intros g done Hs Hkeys Hvals k vs Hin.
  - rewrite app_nil_r. apply Hvals. exact Hin.
  - cbn [fold_left fst snd] in Hin.
    replace (done ++ (k0, v0) :: rows) with ((done ++ [(k0, v0)]) ++ rows)
      by (rewrite <- app_assoc; reflexivity).
    apply (IH (add_row k0 v0 g) (done ++ [(k0, v0)])); [| | | exact Hin].
    + apply add_row_sorted. exact Hs.
    + intros k'. rewrite add_row_keys_In, map_app, in_app_iff, Hkeys.
      simpl. intuition.
    + intros k' vs' Hin'. rewrite values_of_app.
      unfold values_of at 2. cbn [filter fst snd map].
      destruct (add_row_In _ _ _ _ _ Hs Hin')
        as [[-> [(vs0 & Hvs0 & ->) | [Hno ->]]] | [Hne Hg]].
      * rewrite String.eqb_refl. cbn [map snd].
        rewrite (Hvals _ _ Hvs0). reflexivity.
      * rewrite String.eqb_refl. cbn [map snd].
        rewrite values_of_absent; [reflexivity |].
        intros Hd. apply Hno. apply Hkeys. exact Hd.
      * destruct (String.eqb_spec k0 k') as [-> | _]; [contradiction |].
        cbn [map]. rewrite app_nil_r. apply Hvals. exact Hg.
Qed.

(** [groupby] gathers under each label the values of the rows carrying
    it, in row order. *)
Lemma groupby_values rows k vs :
  In (k, vs) (groupby rows) -> vs = values_of k rows.
Proof.
  intros Hin.
  apply (fold_add_row_values rows [] [] (SSorted_nil _)); [| | exact Hin].
  - intros k'. simpl. tauto.
  - intros k' vs' [].
Qed.

Variable str_of : cell -> string.
Variable sort_values_desc :
  list (string * option Q) -> list (string * option Q).
Hypothesis sort_perm : forall l, Permutation (sort_values_desc l) l.

(** X9. Every bar of the chart is the reduction (sum, mean or count) of
    exactly the rows of the filtered table that carry its label, taken in
    row order, and no label has two bars. *)
Theorem agregar_value_of_label (df_f : DataFrame) (cat col : string)
  (m : modo) (tmp grp : list (string * option Q)) :
  tmp_rows str_of df_f cat col = Ok tmp ->
  agregar F str_of sort_values_desc df_f cat col m = Ok grp ->
  (forall k v, In (k, v) grp ->
               In k (map fst tmp) /\ v = reduce F m (values_of k tmp))
  /\ NoDup (map fst grp).
Proof.
  intros Htmp Hagr. unfold agregar in Hagr. rewrite Htmp in Hagr.
  cbv beta iota delta [rbind] in Hagr. apply Ok_inj in Hagr.
  set (red := map (fun g => (fst g, reduce F m (snd g))) (groupby tmp)) in Hagr.
  assert (Hkeys : Permutation (map fst (sort_values_desc red))
                              (keys (groupby tmp))).
  { rewrite (Permutation_map fst (sort_perm red)). unfold red.
    fold (keys (map (fun g => (fst g, reduce F m (snd g))) (groupby tmp))).
    rewrite keys_reduce. reflexivity. }
  split.
  - intros k v Hin. rewrite <- Hagr in Hin. apply In_firstn in Hin.
    apply (Permutation_in _ (sort_perm red)) in Hin.
    unfold red in Hin. apply in_map_iff in Hin.
    destruct Hin as ([k' vs] & Heq & Hin). cbn [fst snd] in Heq.
    injection Heq as -> <-. split.
    + apply groupby_keys_In. apply (in_map fst) in Hin. exact Hin.
    + rewrite (groupby_values _ _ _ Hin). reflexivity.
  - rewrite <- Hagr, <- firstn_map.
    assert (Hnd : NoDup (map fst (sort_values_desc red))).
    { apply (Permutation_NoDup (Permutation_sym Hkeys)).
      apply sorted_keys_NoDup, groupby_keys_sorted. }
    rewrite <- (firstn_skipn top_n (map fst (sort_values_desc red))) in Hnd.
    exact (NoDup_app_remove_r _ _ Hnd).
Qed.

End GroupValues.




(** ** Choosing a dataset and a resource *)

Section Choosing.

Import Loader Engine Pagina Nociones.

Context {A V : Type} (key : A -> string) (value : A -> V).

Lemma dict_getitem_setitem (d : dict V) k v k' :
  dict_getitem (dict_setitem d k v) k'
  = if String.eqb k k' then Ok v else dict_getitem d k'.
Proof.
  induction d as [| [k0 v0] d IH]; simpl.
  - reflexivity.
  - destruct (String.eqb_spec k0 k) as [-> | Hne]; simpl.
    + destruct (String.eqb k k'); reflexivity.
    + rewrite IH. destruct (String.eqb_spec k0 k') as [-> | Hne'].
      * destruct (String.eqb_spec k k'); [congruence | reflexivity].
      * reflexivity.
Qed.

Lemma dict_setitem_keys_In (d : dict V) k v k' :
  In k' (dict_keys (dict_setitem d k v)) <-> k' = k \/ In k' (dict_keys d).
Proof.
  unfold dict_keys. induction d as [| [k0 v0] d IH]; simpl.
  - intuition.
  - destruct (String.eqb_spec k0 k) as [-> | Hne]; simpl.
    + intuition.
    + rewrite IH. intuition.
Qed.

Lemma dict_setitem_NoDup (d : dict V) k v :
  NoDup (dict_keys d) -> NoDup (dict_keys (dict_setitem d k v)).
Proof.
  unfold dict_keys. induction d as [| [k0 v0] d IH]; simpl; intros Hnd.
  - constructor; [intros [] | constructor].
  - inversion Hnd as [| ? ? Hnotin Hnd']; subst.
    destruct (String.eqb_spec k0 k) as [-> | Hne]; simpl.
    + constructor; assumption.
    + constructor; [| apply IH; exact Hnd'].
      intros Hin. apply (dict_setitem_keys_In d k v k0) in Hin.
      destruct Hin as [-> | Hin]; [apply Hne; reflexivity | exact (Hnotin Hin)].
Qed.

Lemma dict_getitem_In (d : dict V) k :
  In k (dict_keys d) -> exists v, dict_getitem d k = Ok v.
Proof.
  unfold dict_keys. induction d as [| [k0 v0] d IH]; simpl; [intros [] |].
  destruct (String.eqb_spec k0 k) as [-> | Hne].
  - intros _. eexists. reflexivity.
  - intros [H | H]; [contradiction | auto].
Qed.

Lemma fold_dict_getitem (items : list A) :
  forall d k,
    dict_getitem
      (fold_left (fun d x => dict_setitem d (key x) (value x)) items d) k
    = match last_with key k items with
      | Some x => Ok (value x)
      | None => dict_getitem d k
      end.
Proof.
  induction items as [| x items IH]; intros d k; simpl; [reflexivity |].
  rewrite IH. destruct (last_with key k items); [reflexivity |].
  rewrite dict_getitem_setitem. destruct (String.eqb (key x) k); reflexivity.
Qed.

Lemma fold_dict_keys (items : list A) :
  forall d,
    (NoDup (dict_keys d) ->
     NoDup (dict_keys
              (fold_left (fun d x => dict_setitem d (key x) (value x))
                         items d)))
    /\ forall k,
         In k (dict_keys
                 (fold_left (fun d x => dict_setitem d (key x) (value x))
                            items d))
         <-> In k (dict_keys d) \/ In k (map key items).
Proof.
  induction items as [| x items IH]; intros d; simpl.
  - split; [auto | intros k; tauto].
  - destruct (IH (dict_setitem d (key x) (value x))) as [H1 H2]. split.
    + intros Hnd. apply H1. apply dict_setitem_NoDup. exact Hnd.
    + intros k. rewrite H2, dict_setitem_keys_In. intuition.
Qed.

Lemma last_with_spec (items : list A) k x :
  last_with key k items = Some x -> In x items /\ key x = k.
Proof.
  induction items as [| y items IH]; simpl; [discriminate |].
  destruct (last_with key k items) as [z |].
  - intros H. injection H as ->. destruct (IH eq_refl). auto.
  - destruct (String.eqb_spec (key y) k); [| discriminate].
    intros H. injection H as ->. auto.
Qed.

(** Reading a dictionary built from a list at a key offered by the select
    box never fails, and gives the last item that has this key. *)
Lemma elegir_ultimo (items : list A) (choice : nat) :
  items <> [] ->
  NoDup (dict_keys (dict_of key value items)) /\
  (forall x, In x items -> In (key x) (dict_keys (dict_of key value items)))
  /\
  exists x,
    dict_getitem (dict_of key value items)
                 (selectbox (dict_keys (dict_of key value items)) choice)
    = Ok (value x) /\
    key x = selectbox (dict_keys (dict_of key value items)) choice /\
    In x items /\
    last_with key (selectbox (dict_keys (dict_of key value items)) choice)
              items = Some x.
Proof.
  intros Hne. unfold dict_of.
  destruct (fold_dict_keys items []) as [Hnd Hkeys].
  split; [apply Hnd; constructor |]. split.
  - intros x Hx. apply Hkeys. right. apply in_map. exact Hx.
  - set (d := fold_left (fun d x => dict_setitem d (key x) (value x)) items [])
      in *.
    assert (Hsel : In (selectbox (dict_keys d) choice) (dict_keys d)).
    { apply selectbox_In. destruct items as [| x0 items]; [contradiction |].
      intros Hnil.
      assert (Hin : In (key x0) (dict_keys d)).
      { apply Hkeys. right. left. reflexivity. }
      rewrite Hnil in Hin. destruct Hin. }
    set (k := selectbox (dict_keys d) choice) in *.
    unfold d. rewrite fold_dict_getitem.
    destruct (last_with key k items) as [x |] eqn:El.
    + destruct (last_with_spec _ _ _ El) as [Hx Hk].
      exists x. split; [reflexivity |]. split; [exact Hk |].
      split; [exact Hx | reflexivity].
    + exfalso. apply dict_getitem_In in Hsel. destruct Hsel as (v & Hv).
      unfold d in Hv. rewrite fold_dict_getitem, El in Hv. discriminate Hv.
Qed.

End Choosing.

Section ChoosingOnThePage.

Import Loader Engine Pagina Nociones.

(** X13. Each title is offered once, every dataset's title is offered,
    and choosing a title never fails: the id it yields is that of a
    dataset bearing the chosen title, namely the last one of the search
    results that bears it, so a dataset whose title comes again further
    down cannot be opened. *)
Theorem elegir_dataset_last_title (datasets : list hit) (choice : nat) :
  datasets <> [] ->
  let chosen := selectbox (dict_keys (options datasets)) choice in
  NoDup (dict_keys (options datasets)) /\
  (forall d, In d datasets -> In (titulo d) (dict_keys (options datasets))) /\
  exists d,
    elegir_dataset datasets choice = Ok (hit_id d) /\
    titulo d = chosen /\
    In d datasets /\
    last_with titulo chosen datasets = Some d.
Proof.
  intros Hne. exact (elegir_ultimo titulo hit_id datasets choice Hne).
Qed.

Variable str_upper : string -> string.

(** X14. The same holds for resources: labels (display name or id, format
    in upper case, DataStore flag) are offered once each, choosing one
    never fails, and it gives a resource with the chosen label, the last
    of the dataset that has it. *)
Theorem elegir_recurso_last_label (resources : list listed) (choice : nat) :
  resources <> [] ->
  let chosen :=
    selectbox (dict_keys (res_options str_upper resources)) choice in
  NoDup (dict_keys (res_options str_upper resources)) /\
  (forall r, In r resources ->
             In (etiqueta str_upper r)
                (dict_keys (res_options str_upper resources))) /\
  exists r,
    elegir_recurso str_upper resources choice = Ok (res r) /\
    etiqueta str_upper r = chosen /\
    In r resources /\
    last_with (etiqueta str_upper) chosen resources = Some r.
Proof.
  intros Hne.
  exact (elegir_ultimo (etiqueta str_upper) res resources choice Hne).
Qed.

Lemma firstn_prefix {C} (n : nat) (l : list C) :
  exists rest, l = firstn n l ++ rest.
Proof. exists (skipn n l). symmetry. apply firstn_skipn. Qed.

(** X15. The description shown is the whole text when it has at most 900
    characters; otherwise it is its first 900 characters followed by three
    dots, 903 characters in all. *)
Theorem resumen_length {C : Type} (dot : C) (notes : option (list C)) :
  let text := match notes with Some t => t | None => [] end in
  ((List.length text <= 900)%nat -> resumen dot notes = text) /\
  ((900 < List.length text)%nat ->
   List.length (resumen dot notes) = 903%nat /\
   exists rest, text = firstn 900 text ++ rest /\
                resumen dot notes = firstn 900 text ++ [dot; dot; dot]) /\
  (List.length (resumen dot notes) <= 903)%nat.
Proof.
  intros text. unfold resumen. fold text.
  destruct (Nat.ltb_spec 900 (List.length text)) as [Hlong | Hshort].
  - assert (Hlen : List.length (firstn 900 text ++ [dot; dot; dot])
                   = 903%nat).
    { rewrite length_app, length_firstn. cbn [List.length]. lia. }
    split; [intros H; lia |]. split.
    + intros _. split; [exact Hlen |].
      destruct (firstn_prefix 900 text) as (rest & Hr).
      exists rest. split; [exact Hr | reflexivity].
    + rewrite Hlen. lia.
  - rewrite app_nil_r, (firstn_all2 text Hshort).
    split; [reflexivity |]. split; [intros H; lia | lia].
Qed.

End ChoosingOnThePage.

(** ** The table built from the records of the store *)

Section RecordsToTable.

Import Loader Nociones.

Lemma existsb_eqb_In k (seen : list string) :
  existsb (String.eqb k) seen = true <-> In k seen.
Proof.
  rewrite existsb_exists. split.
  - intros (x & Hx & Heq). apply String.eqb_eq in Heq. subst x. exact Hx.
  - intros H. exists k. split; [exact H | apply String.eqb_refl].
Qed.

Lemma add_key_spec (seen : list string) k :
  (NoDup seen -> NoDup (add_key seen k)) /\
  forall k', In k' (add_key seen k) <-> In k' seen \/ k' = k.
Proof.
  unfold add_key. destruct (existsb (String.eqb k) seen) eqn:E.
  - apply existsb_eqb_In in E. split; [auto |].
    intros k'. split; [auto |]. intros [H | ->]; assumption.
  - assert (Hno : ~ In k seen).
    { intros H. apply existsb_eqb_In in H. congruence. }
    split.
    + intros Hnd.
      apply NoDup_app; [exact Hnd | repeat constructor; intros [] |].
      intros x Hx [<- | []]. exact (Hno Hx).
    + intros k'. rewrite in_app_iff. simpl. intuition.
Qed.

Lemma fold_add_key (ks : list string) :
  forall seen,
    (NoDup seen -> NoDup (fold_left add_key ks seen)) /\
    forall k, In k (fold_left add_key ks seen) <-> In k seen \/ In k ks.
Proof.
  induction ks as [| k0 ks IH]; intros seen; simpl.
  - split; [auto | intros k; tauto].
  - destruct (IH (add_key seen k0)) as [H1 H2].
    destruct (add_key_spec seen k0) as [H3 H4]. split.
    + intros Hnd. apply H1, H3, Hnd.
    + intros k. rewrite H2, H4. intuition.
Qed.

Lemma fold_record_keys (records : list record) :
  forall seen,
    (NoDup seen ->
     NoDup (fold_left (fun seen r => fold_left add_key (map fst r) seen)
                      records seen)) /\
    forall k,
      In k (fold_left (fun seen r => fold_left add_key (map fst r) seen)
                      records seen)
      <-> In k seen \/ exists r, In r records /\ In k (map fst r).
Proof.
  induction records as [| r0 records IH]; intros seen; simpl.
  - split; [auto |]. intros k. split; [auto |].
    intros [H | (r & [] & _)]. exact H.
  - destruct (IH (fold_left add_key (map fst r0) seen)) as [H1 H2].
    destruct (fold_add_key (map fst r0) seen) as [H3 H4]. split.
    + intros Hnd. apply H1, H3, Hnd.
    + intros k. rewrite H2, H4. split.
      * intros [[H | H] | (r & Hr & Hk)]; [auto | |].
        -- right. exists r0. auto.
        -- right. exists r. auto.
      * intros [H | (r & [<- | Hr] & Hk)]; [auto | auto |].
        right. exists r. auto.
Qed.

Lemma cells_infer_column fits (l : list cell) :
  cells (infer_column fits l) = l.
Proof.
  unfold infer_column.
  destruct (forallb (fun c => is_number c || is_null c) l) eqn:E;
    [| reflexivity].
  destruct (existsb is_number l); [| reflexivity].
  destruct (fits l); [| reflexivity].
  cbn [andb cells]. rewrite forallb_forall in E.
  induction l as [| c l IH]; [reflexivity |].
  cbn [map]. rewrite IH.
  - specialize (E c (or_introl eq_refl)).
    destruct c; try discriminate E; reflexivity.
  - intros x Hx. apply E. right. exact Hx.
Qed.

Variable datastore_search : string -> Z -> result (list record).
Variable read_csv : string -> result DataFrame.
Variable str_upper : string -> string.
Variable fits : list cell -> bool.

(** X16. On the structured-store path the table mirrors the records: one
    row per record, one column per key that occurs in some record, no
    column twice, every column as long as the table, and in each column
    the record's value under that key, or a missing value where the record
    lacks the key. *)
Theorem datastore_table_mirrors_records (r : resource) (limit : Z)
  (recs : list record) :
  truthy_bool (datastore_active r) = true ->
  datastore_search (id r) limit = Ok recs ->
  exists df,
    snd (cargar_recurso datastore_search read_csv str_upper fits
          r limit) = Ok (Some df) /\
    nrows df = List.length recs /\
    well_formed df /\
    NoDup (df_columns df) /\
    (forall k, In k (df_columns df) <->
               exists rc, In rc recs /\ In k (map fst rc)) /\
    (forall k c, In (k, c) (columns df) ->
                 cells c = map (fun rc => lookup rc k) recs).
Proof.
  intros Hds Hrecs. exists (DataFrame_of_records fits recs).
  split.
  { unfold cargar_recurso. rewrite Hds.
    unfold cargar_recurso_datastore, bind, rmap, rbind, ret.
    rewrite Hrecs. reflexivity. }
  assert (Hcells : forall k c,
             In (k, c) (columns (DataFrame_of_records fits recs)) ->
             cells c = map (fun rc => lookup rc k) recs).
  { intros k c Hin. unfold DataFrame_of_records in Hin. cbn [columns] in Hin.
    apply in_map_iff in Hin. destruct Hin as (k' & Heq & _).
    injection Heq as -> <-. apply cells_infer_column. }
  assert (Hnames : df_columns (DataFrame_of_records fits recs)
                   = record_keys recs).
  { unfold df_columns, DataFrame_of_records. cbn [columns].
    rewrite map_map. cbn [fst]. apply map_id. }
  destruct (fold_record_keys recs []) as [Hnd Hkeys].
  split; [reflexivity |]. split; [| split; [| split]].
  - intros k c Hin. rewrite (Hcells k c Hin), length_map. reflexivity.
  - rewrite Hnames. apply Hnd. constructor.
  - intros k. rewrite Hnames. unfold record_keys. rewrite Hkeys.
    simpl. tauto.
  - exact Hcells.
Qed.

End RecordsToTable.

(** ** From the chosen resource to the end of the page *)

Section WholePage.

Import Loader Engine Pagina Nociones.

Variable F : Stats.arith.

Variable datastore_search : string -> Z -> result (list record).
Variable read_csv : string -> result DataFrame.
Variable str_upper : string -> string.
Variable fits : list cell -> bool.
Variable floatify : string -> option Q.
Variable str_of : cell -> string.
Variable sort_values_desc :
  list (string * option Q) -> list (string * option Q).

(** X17. Once a resource is chosen the page makes the requests of the
    load and nothing else; an exception of the load ends it; it gives up
    when the load returns nothing or a table without rows or columns;
    otherwise it analyses a table with at least one row and one column,
    and that analysis ends in a warning, in the report, or in the
    [StreamlitAPIException] of the range slider. *)
Theorem cargar_y_analizar_outcomes (r : resource) (limit : Z) (ui : widgets) :
  let load := cargar_recurso datastore_search read_csv str_upper fits
          r limit in
  let page := cargar_y_analizar datastore_search read_csv str_upper fits F
                                floatify str_of sort_values_desc
                                r limit ui in
  fst page = fst load /\
  match snd page with
  | ErrorDeCarga e => snd load = Raise e
  | NoCargado =>
      snd load = Ok None \/
      exists df, snd load = Ok (Some df) /\
                 (nrows df = 0%nat \/ columns df = [])
  | Analizado o =>
      exists df,
        snd load = Ok (Some df) /\
        (0 < nrows df)%nat /\ columns df <> [] /\
        o = analizar F floatify str_of sort_values_desc df ui /\
        ((exists w, o = Stopped w) \/ (exists rep, o = Rendered rep)
         \/ o = Uncaught StreamlitAPIException)
  end.
Proof.
  cbv zeta. unfold cargar_y_analizar.
  destruct (cargar_recurso datastore_search read_csv str_upper fits
          r limit)
    as [log [[df |] | e]]; cbn [fst snd].
  - destruct (df_empty df) eqn:E; cbn [fst snd]; (split; [reflexivity |]).
    + right. exists df. split; [reflexivity |].
      unfold df_empty in E. apply orb_true_iff in E.
      destruct E as [E | E]; apply Nat.eqb_eq in E; [left; exact E |].
      right. destruct (columns df); [reflexivity | discriminate E].
    + exists df. split; [reflexivity |].
      unfold df_empty in E. apply orb_false_iff in E. destruct E as [E1 E2].
      apply Nat.eqb_neq in E1. apply Nat.eqb_neq in E2.
      split; [lia |]. split; [intros Hnil; rewrite Hnil in E2; apply E2;
                              reflexivity |].
      split; [reflexivity |].
      destruct (analizar_cases F floatify str_of sort_values_desc df ui)
        as [[_ H] | (col & c & vals & _ & _ & _ & _ &
                     [[_ H] | (minv & maxv & _ & _ &
                               [[_ H] | (_ & cands & top & _ & _ & H)])])].
      * left. eauto.
      * left. eauto.
      * right. right. exact H.
      * right. left. eauto.
  - split; [reflexivity | left; reflexivity].
  - split; reflexivity.
Qed.

End WholePage.

Section DefaultRange.

Import Engine Nociones.
Local Open Scope Q_scope.

Variable F : Stats.arith.

Variable floatify : string -> option Q.
Variable str_of : cell -> string.
Variable sort_values_desc :
  list (string * option Q) -> list (string * option Q).

(** X18. With the slider left at its initial position the filtered series
    is the whole series of valid numbers of the chosen column, so the
    report is never over an empty series; only the rows without a valid
    number are missing from the filtered table. *)
Theorem untouched_slider_keeps_series (df : DataFrame) (ui : widgets) r :
  pick_rango ui = None ->
  analizar F floatify str_of sort_values_desc df ui = Rendered r ->
  exists c,
    getitem (columns df) (indicador r) = Ok c /\
    preparar floatify c = Ok (s_filtrada r) /\
    s_filtrada r <> [] /\
    nrows (df_f r) = List.length (s_filtrada r).
Proof.
  intros Hui Hr.
  destruct (analizar_cases F floatify str_of sort_values_desc df ui)
    as [[_ H] | (col & c & vals & _ & _ & Hc & Hvals &
                 [[_ H] | (minv & maxv & Hmin & Hmax &
                           [[_ H] | (_ & cands & top & _ & _ & H)])])];
    try (rewrite H in Hr; discriminate Hr).
  rewrite H in Hr. injection Hr as <-.
  cbv beta iota delta [indicador s_filtrada df_f].
  unfold chosen_range. rewrite Hui. cbn [fst snd].
  assert (Hs : dropna (select (range_mask vals minv maxv) vals) = dropna vals).
  { rewrite dropna_select_range. apply filter_all. intros v Hv.
    destruct (min_max_bound _ _ _ Hmin Hmax v Hv) as [H1 H2].
    unfold in_range. apply andb_true_iff. rewrite !Qle_bool_iff. auto. }
  exists c. split; [exact Hc |]. split; [| split].
  - unfold preparar. rewrite Hvals, Hs. reflexivity.
  - rewrite Hs. intros Hnil. rewrite Hnil in Hmin. discriminate Hmin.
  - unfold boolean_index. cbn [nrows].
    destruct (select_range_mask vals minv maxv) as [H1 H2].
    rewrite <- H2. rewrite H1 at 1. rewrite length_map. reflexivity.
Qed.

(** X11. In a report over a non-empty filtered series the tile "Máximo"
    is one of the values of that series, so once the slider is set to
    [(lo, hi)] it lies between [lo] and [hi]. *)
Theorem report_maximum_within_slider (df : DataFrame) (ui : widgets) r
  (lo hi : Q) :
  analizar F floatify str_of sort_values_desc df ui = Rendered r ->
  pick_rango ui = Some (lo, hi) ->
  s_filtrada r <> [] ->
  exists mx,
    maximo (tiles r) = Some mx /\ In mx (s_filtrada r) /\ lo <= mx <= hi.
Proof.
  intros Hr Hui Hne.
  destruct (analizar_cases F floatify str_of sort_values_desc df ui)
    as [[_ H] | (col & c & vals & _ & _ & Hc & Hvals &
                 [[_ H] | (minv & maxv & Hmin & Hmax &
                           [[_ H] | (_ & cands & top & _ & _ & H)])])];
    try (rewrite H in Hr; discriminate Hr).
  rewrite H in Hr. injection Hr as <-.
  cbv beta iota delta [s_filtrada tiles calcular_kpis maximo] in *.
  unfold chosen_range in *. rewrite Hui in *. cbn [fst snd] in *.
  set (s := dropna (select (range_mask vals lo hi) vals)) in *.
  destruct s as [| x l] eqn:Es; [contradiction |].
  exists (fold_left Stats.qmax l x). split; [reflexivity |].
  assert (Hin : In (fold_left Stats.qmax l x) (x :: l))
    by apply fold_qmax_In.
  split; [exact Hin |].
  rewrite <- Es in Hin. unfold s in Hin.
  rewrite dropna_select_range in Hin.
  apply filter_In in Hin. destruct Hin as [_ Hin].
  unfold in_range in Hin. apply andb_true_iff in Hin.
  rewrite !Qle_bool_iff in Hin. exact Hin.
Qed.

End DefaultRange.

(** ** The further properties at concrete inputs *)

Section FurtherCases.

Import Loader Profiler Engine Pagina Nociones Ejemplos Casos.
Local Open Scope Q_scope.

Lemma tabla_csv_well_formed : well_formed tabla_csv.
Proof.
  intros n c [H | [H | []]]; injection H as <- <-; reflexivity.
Qed.

(** The full-range run on the CSV table. *)
Lemma report_series_is_table_column_witness :
  exists r,
    analizar Stats.exact parse_int print_cell stable_sort_desc
             tabla_csv ui_inicial
      = Rendered r /\
    (getitem (columns (df_f r)) (indicador r)
       = Ok (NumCol (map Some (s_filtrada r))) /\
     registros (tiles r) = nrows (df_f r) /\
     List.length (s_filtrada r) = nrows (df_f r)).
Proof.
  eexists. split; [reflexivity |].
  apply (report_series_is_table_column Stats.exact parse_int print_cell
           stable_sort_desc
           tabla_csv ui_inicial).
  reflexivity.
Defined.

(** On the CSV table the chart groups by [hospital]. *)
Lemma report_top15_shape_witness :
  exists r,
    analizar Stats.exact parse_int print_cell stable_sort_desc
             tabla_csv ui_inicial
      = Rendered r /\
    exists cands,
      cat_candidates (df_f r) (indicador r) = Ok cands /\
      match top15 r with
      | None => cands = []
      | Some (cat, grp) =>
          In cat cands /\ cat <> indicador r /\
          is_candidate (df_f r) max_unique_default cat /\
          (List.length grp <= 15)%nat
      end.
Proof.
  eexists. split; [reflexivity |].
  apply (report_top15_shape Stats.exact parse_int print_cell stable_sort_desc
           tabla_csv ui_inicial).
  reflexivity.
Defined.

(** Bounds [(30, 10)] on the CSV table. *)
Lemma filtrar_inverted_range_witness :
  getitem (columns tabla_csv) "egresos"
    = Ok (NumCol [Some 10; Some 20; Some 30]) /\
  10 < 30 /\
  exists df_f,
    filtrar tabla_csv "egresos" 30 10 = Ok df_f /\
    nrows df_f = 0%nat /\
    getitem (columns df_f) "egresos" = Ok (NumCol []).
Proof.
  split; [reflexivity |]. split; [reflexivity |].
  apply (filtrar_inverted_range tabla_csv "egresos"
           [Some 10; Some 20; Some 30] 30 10); reflexivity.
Defined.

(** The CSV table filtered to [(10, 20)]. *)
Lemma filtrar_keeps_shape_witness :
  well_formed tabla_csv /\
  exists df_f,
    filtrar tabla_csv "egresos" 10 20 = Ok df_f /\
    well_formed df_f /\
    df_columns df_f = df_columns tabla_csv /\
    numeric_cols df_f = numeric_cols tabla_csv /\
    (nrows df_f <= nrows tabla_csv)%nat.
Proof.
  split; [exact tabla_csv_well_formed |].
  eexists. split; [reflexivity |].
  apply (filtrar_keeps_shape tabla_csv _ "egresos" 10 20
           tabla_csv_well_formed).
  reflexivity.
Defined.

(** The candidates of the services table, in column order. *)
Lemma low_cardinality_cols_in_column_order_witness :
  NoDup (df_columns tabla_servicios) /\
  low_cardinality_cols tabla_servicios max_unique_default
    = Ok ["servicio"; "egresos"] /\
  NoDup (filter (candidate_b tabla_servicios max_unique_default)
                (df_columns tabla_servicios)).
Proof.
  assert (Hnd : NoDup (df_columns tabla_servicios)).
  { repeat constructor; simpl; intuition discriminate. }
  split; [exact Hnd |].
  destruct (low_cardinality_cols_in_column_order tabla_servicios
              max_unique_default) as [Heq Hnd'].
  split; [rewrite Heq; reflexivity | exact (Hnd' Hnd)].
Defined.

(** A one-row table has no candidate. *)
Lemma no_candidates_below_two_rows_witness :
  well_formed tabla_una_fila /\ (nrows tabla_una_fila < 2)%nat /\
  low_cardinality_cols tabla_una_fila max_unique_default = Ok [] /\
  cat_candidates tabla_una_fila "egresos" = Ok [].
Proof.
  assert (Hwf : well_formed tabla_una_fila).
  { intros n c [H | [H | []]]; injection H as <- <-; reflexivity. }
  assert (Hrows : (nrows tabla_una_fila < 2)%nat) by (simpl; lia).
  split; [exact Hwf |]. split; [exact Hrows |].
  exact (no_candidates_below_two_rows tabla_una_fila "egresos" Hwf Hrows).
Defined.

(** The CSV table has distinct column names. *)
Lemma coercion_of_indicator_is_noop_witness :
  NoDup (df_columns tabla_csv) /\
  analizar Stats.exact parse_int print_cell stable_sort_desc
             tabla_csv ui_inicial
  = analizar Stats.exact (fun _ => None) print_cell stable_sort_desc
             tabla_csv ui_inicial.
Proof.
  assert (Hnd : NoDup (df_columns tabla_csv)).
  { repeat constructor; simpl; intuition discriminate. }
  split; [exact Hnd |].
  apply (proj2 (coercion_of_indicator_is_noop Stats.exact print_cell
                  stable_sort_desc
                  tabla_csv ui_inicial Hnd)).
Defined.

(** The bar of hospital A on the CSV table. *)
Lemma agregar_value_of_label_witness :
  (forall l, Permutation (stable_sort_desc l) l) /\
  tmp_rows print_cell tabla_csv "hospital" "egresos"
    = Ok [("A", Some 10); ("B", Some 20); ("A", Some 30)] /\
  agregar Stats.exact print_cell stable_sort_desc
          tabla_csv "hospital" "egresos" Suma
    = Ok [("A", Some (0 + 10 + 30)); ("B", Some (0 + 20))] /\
  Some (0 + 10 + 30)
  = reduce Stats.exact Suma (values_of "A" [("A", Some 10); ("B", Some 20);
                                ("A", Some 30)]).
Proof.
  split; [exact stable_sort_desc_perm |].
  split; [reflexivity |]. split; [reflexivity |].
  apply (proj1 (agregar_value_of_label Stats.exact print_cell stable_sort_desc
                  stable_sort_desc_perm tabla_csv "hospital" "egresos" Suma
                  _ _ eq_refl eq_refl) "A" (Some (0 + 10 + 30))).
  left. reflexivity.
Defined.

(** Two records from the store. *)
Lemma datastore_table_mirrors_records_witness :
  truthy_bool (datastore_active recurso_datastore) = true /\
  store (id recurso_datastore) 2 = Ok (firstn 2 registros_egresos) /\
  exists df,
    snd (cargar_recurso store csv upper cabe recurso_datastore 2)
    = Ok (Some df) /\
    nrows df = 2%nat /\ well_formed df /\ NoDup (df_columns df).
Proof.
  split; [reflexivity |]. split; [reflexivity |].
  destruct (datastore_table_mirrors_records store csv upper cabe
              recurso_datastore 2
              (firstn 2 registros_egresos) eq_refl eq_refl)
    as (df & Hdf & Hrows & Hwf & Hnd & _).
  exists df. repeat split; assumption.
Defined.

(** The untouched slider on the table with a missing value. *)
Lemma untouched_slider_keeps_series_witness :
  pick_rango ui_inicial = None /\
  exists r,
    analizar Stats.exact parse_int print_cell stable_sort_desc
             tabla_servicios ui_inicial
      = Rendered r /\
    s_filtrada r <> [] /\
    nrows (df_f r) = List.length (s_filtrada r).
Proof.
  split; [reflexivity |].
  eexists. split; [reflexivity |].
  destruct (untouched_slider_keeps_series Stats.exact parse_int print_cell
              stable_sort_desc tabla_servicios ui_inicial _
              eq_refl eq_refl)
    as (c & _ & _ & Hne & Hrows).
  split; [exact Hne | exact Hrows].
Defined.



(** A one-row table: the slider refuses its bounds. *)
Lemma analizar_only_slider_raises_witness :
  numeric_cols tabla_una_fila <> [] /\
  getitem (columns tabla_una_fila)
          (selectbox (numeric_cols tabla_una_fila) (pick_col ui_inicial))
    = Ok (NumCol [Some 5]) /\
  preparar parse_int (NumCol [Some 5]) = Ok [5] /\
  ([5] <> [] /\ exists v, forall x, In x [5] -> x == v) /\
  analizar Stats.exact parse_int print_cell stable_sort_desc
           tabla_una_fila ui_inicial
  = Uncaught StreamlitAPIException.
Proof.
  assert (Hnum : numeric_cols tabla_una_fila <> []) by discriminate.
  assert (Hall : [5] <> [] /\ exists v, forall x, In x [5] -> x == v).
  { split; [discriminate |]. exists 5. intros x [<- | []]. reflexivity. }
  split; [exact Hnum |]. split; [reflexivity |]. split; [reflexivity |].
  split; [exact Hall |].
  apply (proj2 (analizar_only_slider_raises Stats.exact parse_int print_cell
                  stable_sort_desc tabla_una_fila ui_inicial)
               Hnum (NumCol [Some 5]) [5] eq_refl eq_refl).
  exact Hall.
Defined.

(** The tile "Máximo" of the CSV table under the slider [(10, 20)]. *)
Lemma report_maximum_within_slider_witness :
  exists r,
    analizar Stats.exact parse_int print_cell stable_sort_desc
             tabla_csv ui_rango = Rendered r /\
    pick_rango ui_rango = Some (10, 20) /\
    s_filtrada r <> [] /\
    exists mx,
      maximo (tiles r) = Some mx /\ In mx (s_filtrada r) /\ 10 <= mx <= 20.
Proof.
  eexists. split; [reflexivity |]. split; [reflexivity |].
  split; [discriminate |].
  apply (report_maximum_within_slider Stats.exact parse_int print_cell
           stable_sort_desc tabla_csv ui_rango _ 10 20);
    [reflexivity | reflexivity | discriminate].
Defined.

(** The repeated title opens the later dataset. *)
Lemma elegir_dataset_last_title_witness :
  resultados <> [] /\
  selectbox (dict_keys (options resultados)) 0 = "Egresos hospitalarios" /\
  elegir_dataset resultados 0 = Ok "ds-2020" /\
  exists d,
    elegir_dataset resultados 0 = Ok (hit_id d) /\
    titulo d = "Egresos hospitalarios" /\
    last_with titulo "Egresos hospitalarios" resultados = Some d.
Proof.
  assert (Hne : resultados <> []) by discriminate.
  split; [exact Hne |]. split; [reflexivity |]. split; [reflexivity |].
  destruct (elegir_dataset_last_title resultados 0 Hne)
    as (_ & _ & d & Hd & Ht & _ & Hl).
  exists d. split; [exact Hd |]. split; [exact Ht | exact Hl].
Defined.

(** The shared label gives the later resource. *)
Lemma elegir_recurso_last_label_witness :
  recursos <> [] /\
  rmap id (elegir_recurso upper recursos 0) = Ok "r9" /\
  exists r,
    elegir_recurso upper recursos 0 = Ok (res r) /\
    etiqueta upper r
    = selectbox (dict_keys (res_options upper recursos)) 0.
Proof.
  assert (Hne : recursos <> []) by discriminate.
  split; [exact Hne |]. split; [reflexivity |].
  destruct (elegir_recurso_last_label upper recursos 0 Hne)
    as (_ & _ & r & Hr & Hl & _).
  exists r. split; [exact Hr | exact Hl].
Defined.

(** A short description is shown whole. *)
Lemma resumen_length_witness :
  (List.length [1; 2; 3] <= 900)%nat /\
  resumen 0%nat (Some [1; 2; 3]%nat) = [1; 2; 3]%nat.
Proof.
  assert (H : (List.length [1; 2; 3]%nat <= 900)%nat) by (simpl; lia).
  split; [exact H |].
  exact (proj1 (resumen_length 0%nat (Some [1; 2; 3]%nat)) H).
Defined.

End FurtherCases.
